(** * The LXD environ of Juju (provider/lxd/environ.go)

    A shallow embedding of the lifecycle controller of one LXD-backed
    environment: construction with profile initialisation, the guarded
    configuration snapshot, Bootstrap with its trust step, Destroy,
    DestroyController with the hosted-model sweep, and certificate removal.

    The environ drives remote collaborators (the raw LXD client, the generic
    bootstrap/destroy strategy, the firewaller of the environ).  Their calls
    are the operations of a signature [Op]; the functions of environ.go are
    programs over that signature, run against any handler of the operations,
    and the run records every call with the answer it received. *)

From Stdlib Require Import ZArith Lia.
From stdpp Require Import base strings list gmap.

Open Scope string_scope.
Open Scope list_scope.

(** ** Errors (github.com/juju/errors)

    A Go [error] is nil or an error value.  [Trace] and [Annotate] wrap an
    error and keep its cause; [IsNotFound] and [IsAlreadyExists] look at the
    cause. *)

Module errors.

Inductive errval : Type :=
| New (msg : string)
| NotFoundf (msg : string)
| AlreadyExistsf (msg : string)
| Trace (e : errval)
| Annotate (e : errval) (msg : string)
| Annotatef (e : errval) (format : string) (args : list string).

Fixpoint Cause (e : errval) : errval :=
  match e with
  | Trace e' => Cause e'
  | Annotate e' _ => Cause e'
  | Annotatef e' _ _ => Cause e'
  | _ => e
  end.

Definition IsNotFound (err : option errval) : bool :=
  match err with
  | None => false
  | Some e => match Cause e with NotFoundf _ => true | _ => false end
  end.

Definition IsAlreadyExists (err : option errval) : bool :=
  match err with
  | None => false
  | Some e => match Cause e with AlreadyExistsf _ => true | _ => false end
  end.

End errors.

(** Go's nil-able [error]. *)
Abbreviation error := (option errors.errval).

(** What a collaborator returning [(T, error)] hands back: the code always
    tests the error first and reads the value only when the error is nil. *)
Inductive result (T : Type) : Type :=
| Ok (t : T)
| Err (e : errors.errval).
Arguments Ok {T} t.
Arguments Err {T} e.

Definition err_of {T} (r : result T) : error :=
  match r with Ok _ => None | Err e => Some e end.

(** ** Data *)

(** lxdclient.Cert: a named client certificate. *)
Record Cert : Type := mkCert {
  cert_Name : string;
  CertPEM : string;
  KeyPEM : string
}.

(** An entry of the trust store of the LXD server, as a lookup returns it. *)
Record CertInfo : Type := mkCertInfo {
  ci_Fingerprint : string;
  ci_Name : string
}.

(** Modelled from the spec: environs.CloudSpec is declared outside this
    file; it is the "immutable descriptor of the hypervisor endpoint and
    credentials (client certificate, optional server certificate)". *)
Record CloudSpec : Type := mkCloudSpec {
  Endpoint : string;
  ClientCert : option Cert;
  ServerCert : string
}.

(** Modelled from the spec: getCerts is declared in another file of the
    package; it yields the client certificate of the cloud spec, and is not
    ok when "no client certificate is configured".  [None] stands for
    [ok = false]. *)
Definition getCerts (spec : CloudSpec) : option (Cert * string) :=
  match ClientCert spec with
  | Some c => Some (c, ServerCert spec)
  | None => None
  end.

(** config.Config with the two accessors the environ uses. *)
Module config.
Record Config : Type := mkConfig {
  cfg_Name : string;
  cfg_UUID : string;
  cfg_attrs : gmap string string
}.
End config.
Export config (cfg_Name, cfg_UUID, cfg_attrs, mkConfig).

(** environConfig embeds the validated *config.Config. *)
Record environConfig : Type := mkEnvironConfig {
  ec_Config : config.Config;
  ec_attrs : gmap string string
}.

Definition ec_Name (ecfg : environConfig) : string := cfg_Name (ec_Config ecfg).
Definition ec_UUID (ecfg : environConfig) : string := cfg_UUID (ec_Config ecfg).

(** instance.Namespace, derived from the model UUID. *)
Record Namespace : Type := mkNamespace { ns_prefix : string }.

(** lxdclient.Remote and the raw provider holding it ([env.raw.remote.Cert]
    is a pointer, nil when the remote has no certificate). *)
Record Remote : Type := mkRemote {
  remote_Name : string;
  remote_Cert : option Cert
}.

Record rawProvider : Type := mkRawProvider { remote : Remote }.

(** lxdclient.Instance as the sweep reads it: the name and the metadata. *)
Record Instance : Type := mkInstance {
  inst_Name : string;
  inst_Metadata : gmap string string
}.

Record environInstance : Type := mkEnvironInstance { inst_raw : Instance }.

Definition Id (inst : environInstance) : string := inst_Name (inst_raw inst).

(** Indexing a Go map: the zero value when the key is missing. *)
Definition index (m : gmap string string) (k : string) : string :=
  default "" (m !! k).

Record IngressRule : Type := mkIngressRule {
  FromPort : Z;
  ToPort : Z;
  Protocol : string;
  SourceCIDRs : list string
}.

Record BootstrapContext : Type := mkBootstrapContext { ctx_verbose : bool }.

Record BootstrapParams : Type := mkBootstrapParams {
  ControllerUUID : string;
  BootstrapSeries : string
}.

Record BootstrapResult : Type := mkBootstrapResult {
  Arch : string;
  Series : string
}.

(** The environ struct ([provider], [base] and [lock] are the interfaces and
    the mutex: the calls through [base] are operations below). *)
Record environ : Type := mkEnviron {
  cloud : CloudSpec;
  local : bool;
  name : string;
  uuid : string;
  raw : rawProvider;
  namespace : Namespace;
  ecfg : environConfig
}.

(** ** Operations on the collaborators *)

Inductive Op : Type -> Type :=
| NewRawProvider (spec : CloudSpec) (loc : bool) : Op (result rawProvider)
| HasProfile (profile : string) : Op (result bool)
| CreateProfile (profile : string) (settings : gmap string string) : Op error
| CertByFingerprint (fingerprint : string) : Op (result CertInfo)
| AddCert (cert : Cert) : Op error
| RemoveCertByFingerprint (fingerprint : string) : Op error
| prefixedInstances (prefix : string) : Op (result (list environInstance))
| RemoveInstances (prefix : string) (ids : list string) : Op error
| IngressRules : Op (result (list IngressRule))
| ClosePorts (rules : list IngressRule) : Op error
| BootstrapEnv (ctx : BootstrapContext) (params : BootstrapParams)
    : Op (result BootstrapResult)
| DestroyEnv : Op error
| EnableHTTPSListener : Op error.

(** A program: it returns, or calls an operation and goes on with the
    answer. *)
Inductive Prog (A : Type) : Type :=
| Ret (a : A)
| Vis {T : Type} (o : Op T) (k : T -> Prog A).
Arguments Ret {A} a.
Arguments Vis {A T} o k.

Fixpoint bind {A B : Type} (p : Prog A) (f : A -> Prog B) : Prog B :=
  match p with
  | Ret a => f a
  | Vis o k => Vis o (fun t => bind (k t) f)
  end.

Definition call {T : Type} (o : Op T) : Prog T := Vis o Ret.

Notation "x <- p ;; q" := (bind p (fun x => q))
  (at level 100, p at next level, right associativity).

(** One call with its answer. *)
Inductive event : Type :=
| Event {T : Type} (o : Op T) (answer : T).

(** A handler answers every operation from a world it may change. *)
Definition handler (W : Type) : Type := forall T : Type, Op T -> W -> T * W.

Fixpoint run {W A : Type} (h : handler W) (p : Prog A) (w : W)
  : A * W * list event :=
  match p with
  | Ret a => (a, w, [])
  | Vis o k =>
      let '(t, w1) := h _ o w in
      let '(a, w2, tr) := run h (k t) w1 in
      (a, w2, Event o t :: tr)
  end.

Definition returned {W A : Type} (x : A * W * list event) : A := x.1.1.
Definition world_after {W A : Type} (x : A * W * list event) : W := x.1.2.
Definition trace {W A : Type} (x : A * W * list event) : list event := x.2.

(** ** environ.go *)

Import errors.

Definition bootstrapMessage : string :=
  "To configure your system to better support LXD containers, please see: https://github.com/lxc/lxd/blob/master/doc/production-setup.md".

Definition defaultProfileConfig : gmap string string :=
  {[ "boot.autostart" := "true"; "security.nesting" := "true" ]}.

Section Environ.

(** Functions and constants of other packages and files that environ.go
    uses: configuration validation (config.go), namespace derivation
    (package instance), the fingerprint of a certificate (package
    lxdclient), and the two metadata keys of package tags. *)
Variable newValidConfig : config.Config -> result environConfig.
Variable NewNamespace : string -> result Namespace.
Variable Fingerprint : Cert -> result string.
Variable JujuModel : string.
Variable JujuController : string.

Definition profileName (env : environ) : string :=
  "juju-" +:+ ec_Name (ecfg env).

Definition initProfile (env : environ) : Prog error :=
  r <- call (HasProfile (profileName env)) ;;
  match r with
  | Err e => Ret (Some (Trace e))
  | Ok hasProfile =>
      if hasProfile then Ret None
      else call (CreateProfile (profileName env) defaultProfileConfig)
  end.

(** newEnviron returns the Go pair (pointer to the environ, error) as it is:
    either component may be nil. *)
Definition newEnviron
    (loc : bool) (spec : CloudSpec) (cfg : config.Config)
    (newRawProvider : CloudSpec -> bool -> Prog (result rawProvider))
  : Prog (option environ * error) :=
  match newValidConfig cfg with
  | Err e => Ret (None, Some (Annotate e "invalid config"))
  | Ok ecfg0 =>
      match NewNamespace (cfg_UUID cfg) with
      | Err e => Ret (None, Some (Trace e))
      | Ok namespace0 =>
          r <- newRawProvider spec loc ;;
          match r with
          | Err e => Ret (None, Some (Trace e))
          | Ok raw0 =>
              let env := {| cloud := spec;
                            local := loc;
                            name := ec_Name ecfg0;
                            uuid := ec_UUID ecfg0;
                            raw := raw0;
                            namespace := namespace0;
                            ecfg := ecfg0 |} in
              err <- initProfile env ;;
              match err with
              | Some e => Ret (None, Some (Trace e))
              | None => Ret (Some env, None)
              end
          end
      end
  end.

Definition Name (env : environ) : string := name env.

(** SetConfig replaces [env.ecfg]; the environ after the call is returned
    with the error. *)
Definition SetConfig (cfg : config.Config) (env : environ) : environ * error :=
  match newValidConfig cfg with
  | Err e => (env, Some (Trace e))
  | Ok ecfg0 =>
      ({| cloud := cloud env; local := local env; name := name env;
          uuid := uuid env; raw := raw env; namespace := namespace env;
          ecfg := ecfg0 |}, None)
  end.

Definition Config (env : environ) : config.Config := ec_Config (ecfg env).

Definition PrepareForBootstrap (env : environ) : Prog error :=
  err <- call EnableHTTPSListener ;;
  match err with
  | Some e => Ret (Some (Annotate e "enabling HTTPS listener"))
  | None => Ret None
  end.

Definition Create (env : environ) : error := None.

Definition Bootstrap (env : environ)
    (ctx : BootstrapContext) (params : BootstrapParams)
  : Prog (result BootstrapResult) :=
  let base_BootstrapEnv := call (BootstrapEnv ctx params) in
  if local env then
    match getCerts (cloud env) with
    | None => Ret (Err (New "cannot bootstrap without client certificate"))
    | Some (clientCert, _) =>
        match Fingerprint clientCert with
        | Err e => Ret (Err (Trace e))
        | Ok fingerprint =>
            r <- call (CertByFingerprint fingerprint) ;;
            let err := err_of r in
            if IsNotFound err then
              err' <- call (AddCert clientCert) ;;
              match err' with
              | Some e =>
                  Ret (Err (Annotatef e "adding certificate %q"
                              [cert_Name clientCert]))
              | None => base_BootstrapEnv
              end
            else
              match err with
              | Some e => Ret (Err (Annotate e "querying certificates"))
              | None => base_BootstrapEnv
              end
        end
    end
  else base_BootstrapEnv.

Definition BootstrapMessage (env : environ) : string := bootstrapMessage.

Definition Destroy (env : environ) : Prog error :=
  let base_DestroyEnv :=
    err <- call DestroyEnv ;;
    match err with
    | Some e => Ret (Some (Trace e))
    | None => Ret None
    end in
  r <- call IngressRules ;;
  match r with
  | Err e => Ret (Some (Trace e))
  | Ok rules =>
      if (0 <? length rules)%nat then
        err <- call (ClosePorts rules) ;;
        match err with
        | Some e => Ret (Some (Trace e))
        | None => base_DestroyEnv
        end
      else base_DestroyEnv
  end.

(** The loop of destroyHostedModelResources over the listed instances:
    [continue] keeps the names collected so far, [append] adds at the end. *)
Definition collect (env : environ) (controllerUUID : string)
    (instances : list environInstance) : list string :=
  fold_left
    (fun (names : list string) (inst : environInstance) =>
       let metadata := inst_Metadata (inst_raw inst) in
       if String.eqb (index metadata JujuModel) (uuid env) then names
       else if negb (String.eqb (index metadata JujuController) controllerUUID)
       then names
       else names ++ [Id inst])
    instances [].

Definition destroyHostedModelResources (env : environ)
    (controllerUUID : string) : Prog error :=
  let prefix := "juju-" in
  r <- call (prefixedInstances prefix) ;;
  match r with
  | Err e => Ret (Some (Annotate e "listing instances"))
  | Ok instances =>
      let names := collect env controllerUUID instances in
      if (0 <? length names)%nat then
        err <- call (RemoveInstances prefix names) ;;
        match err with
        | Some e => Ret (Some (Annotate e "removing hosted model instances"))
        | None => Ret None
        end
      else Ret None
  end.

Definition removeCertificate (env : environ) : Prog error :=
  match remote_Cert (remote (raw env)) with
  | None => Ret None
  | Some cert =>
      match Fingerprint cert with
      | Err e => Ret (Some (Annotate e "generating certificate fingerprint"))
      | Ok fingerprint =>
          err <- call (RemoveCertByFingerprint fingerprint) ;;
          match err with
          | Some e =>
              if negb (IsNotFound err)
              then Ret (Some (Annotate e "removing certificate"))
              else Ret None
          | None => Ret None
          end
      end
  end.

Definition DestroyController (env : environ) (controllerUUID : string)
  : Prog error :=
  err <- Destroy env ;;
  match err with
  | Some e => Ret (Some (Trace e))
  | None =>
      err <- destroyHostedModelResources env controllerUUID ;;
      match err with
      | Some e => Ret (Some (Trace e))
      | None =>
          if local env then
            err <- removeCertificate env ;;
            match err with
            | Some e => Ret (Some (Trace e))
            | None => Ret None
            end
          else Ret None
      end
  end.

End Environ.

(** ** A reference hypervisor

    Modelled from the spec: the LXD server behind the raw client, the
    firewaller and the generic strategy are not part of environ.go.  This
    world follows the consumed interface of the spec operation by operation:
    "certificate-by-fingerprint lookup -> found / not-found / error",
    "add-certificate -> success / already-exists / error",
    "remove-certificate-by-fingerprint -> success / not-found / error",
    "has-profile -> bool / error", "create-profile -> success / error",
    "list-instances-with-prefix -> ordered sequence of {id, metadata map}",
    "remove-instances(prefix, ids...) -> success / error".  The [faults]
    are the outcomes forced on the coming calls, one entry per call: an entry
    [Some e] makes that call fail with [e] and leaves the server as it is (a
    lost connection, a concurrent client). *)

Global Instance IngressRule_eq_dec : EqDecision IngressRule.
Proof. solve_decision. Defined.

Record Hypervisor : Type := mkHypervisor {
  trust : list CertInfo;
  profiles : gmap string (gmap string string);
  containers : list Instance;
  ingress : list IngressRule;
  faults : list error
}.

Definition with_faults (fs : list error) (w : Hypervisor) : Hypervisor :=
  {| trust := trust w; profiles := profiles w; containers := containers w;
     ingress := ingress w; faults := fs |}.

(** The answer of a call that fails with [e]. *)
Definition refuse {T : Type} (o : Op T) (e : errors.errval) : T :=
  match o in Op T return T with
  | NewRawProvider _ _ => Err e
  | HasProfile _ => Err e
  | CreateProfile _ _ => Some e
  | CertByFingerprint _ => Err e
  | AddCert _ => Some e
  | RemoveCertByFingerprint _ => Some e
  | prefixedInstances _ => Err e
  | RemoveInstances _ _ => Some e
  | IngressRules => Err e
  | ClosePorts _ => Some e
  | BootstrapEnv _ _ => Err e
  | DestroyEnv => Some e
  | EnableHTTPSListener => Some e
  end.

Definition has_fingerprint (fp : string) (ci : CertInfo) : bool :=
  String.eqb (ci_Fingerprint ci) fp.

Definition named_in (ids : list string) (i : Instance) : bool :=
  bool_decide (inst_Name i ∈ ids).

Section Reference.

Variable Fingerprint : Cert -> result string.
Variable JujuModel : string.
Variable JujuController : string.
(** The model whose environ is talking to the server. *)
Variable self : string.

(** What the server does with a call that reaches it. *)
Definition serve {T : Type} (o : Op T) (w : Hypervisor) : T * Hypervisor :=
  match o in Op T return T * Hypervisor with
  | NewRawProvider spec _ =>
      (Ok {| remote := {| remote_Name := Endpoint spec;
                          remote_Cert := ClientCert spec |} |}, w)
  | HasProfile p => (Ok (bool_decide (is_Some (profiles w !! p))), w)
  | CreateProfile p settings =>
      match profiles w !! p with
      | Some _ => (Some (errors.AlreadyExistsf p), w)
      | None =>
          (None, {| trust := trust w;
                    profiles := <[p := settings]> (profiles w);
                    containers := containers w; ingress := ingress w;
                    faults := faults w |})
      end
  | CertByFingerprint fp =>
      match List.find (has_fingerprint fp) (trust w) with
      | Some ci => (Ok ci, w)
      | None => (Err (errors.NotFoundf fp), w)
      end
  | AddCert c =>
      match Fingerprint c with
      | Err e => (Some e, w)
      | Ok fp =>
          match List.find (has_fingerprint fp) (trust w) with
          | Some _ => (Some (errors.AlreadyExistsf fp), w)
          | None =>
              (None, {| trust := trust w ++ [mkCertInfo fp (cert_Name c)];
                        profiles := profiles w; containers := containers w;
                        ingress := ingress w; faults := faults w |})
          end
      end
  | RemoveCertByFingerprint fp =>
      match List.find (has_fingerprint fp) (trust w) with
      | None => (Some (errors.NotFoundf fp), w)
      | Some _ =>
          (None, {| trust := List.filter (fun ci => negb (has_fingerprint fp ci))
                               (trust w);
                    profiles := profiles w; containers := containers w;
                    ingress := ingress w; faults := faults w |})
      end
  | prefixedInstances p =>
      (Ok (map mkEnvironInstance
             (List.filter (fun i => String.prefix p (inst_Name i))
                (containers w))), w)
  | RemoveInstances p ids =>
      (None, {| trust := trust w; profiles := profiles w;
                containers :=
                  List.filter
                    (fun i => negb (String.prefix p (inst_Name i) && named_in ids i))
                    (containers w);
                ingress := ingress w; faults := faults w |})
  | IngressRules => (Ok (ingress w), w)
  | ClosePorts rules =>
      (None, {| trust := trust w; profiles := profiles w;
                containers := containers w;
                ingress := List.filter (fun r => negb (bool_decide (r ∈ rules)))
                             (ingress w);
                faults := faults w |})
  | BootstrapEnv _ params =>
      (Ok {| Arch := "amd64"; Series := BootstrapSeries params |},
       {| trust := trust w; profiles := profiles w;
          containers :=
            containers w ++
            [mkInstance ("juju-" +:+ self +:+ "-0")
               {[ JujuModel := self; JujuController := ControllerUUID params ]}];
          ingress := ingress w; faults := faults w |})
  | DestroyEnv =>
      (None, {| trust := trust w; profiles := profiles w;
                containers :=
                  List.filter
                    (fun i => negb (String.eqb (index (inst_Metadata i) JujuModel)
                                      self))
                    (containers w);
                ingress := ingress w; faults := faults w |})
  | EnableHTTPSListener => (None, w)
  end.

Definition hypervisor : handler Hypervisor :=
  fun T o w =>
    match faults w with
    | Some e :: fs => (refuse o e, with_faults fs w)
    | None :: fs => serve o (with_faults fs w)
    | [] => serve o w
    end.

End Reference.

(** ** Reading a trace *)

Definition on_event (f : forall T : Type, Op T -> bool) (e : event) : bool :=
  match e with Event o _ => f _ o end.

(** The calls that touch the trust store. *)
Definition cert_op (T : Type) (o : Op T) : bool :=
  match o with
  | CertByFingerprint _ | AddCert _ | RemoveCertByFingerprint _ => true
  | _ => false
  end.


Definition is_CreateProfile (T : Type) (o : Op T) : bool :=
  match o with CreateProfile _ _ => true | _ => false end.

Definition is_BootstrapEnv (T : Type) (o : Op T) : bool :=
  match o with BootstrapEnv _ _ => true | _ => false end.

Definition is_ClosePorts (T : Type) (o : Op T) : bool :=
  match o with ClosePorts _ => true | _ => false end.

(** The calls of Destroy, of the sweep, and of certificate removal. *)
Definition destroy_op (T : Type) (o : Op T) : bool :=
  match o with
  | IngressRules | ClosePorts _ | DestroyEnv => true
  | _ => false
  end.

Definition sweep_op (T : Type) (o : Op T) : bool :=
  match o with
  | prefixedInstances _ | RemoveInstances _ _ => true
  | _ => false
  end.

Definition removal_op (T : Type) (o : Op T) : bool :=
  match o with RemoveCertByFingerprint _ => true | _ => false end.

(** The batches handed to RemoveInstances, in order. *)
Definition removed (tr : list event) : list (string * list string) :=
  flat_map
    (fun e =>
       match e with
       | Event o _ =>
           match o with
           | RemoveInstances p ids => [(p, ids)]
           | _ => []
           end
       end) tr.

(** The rule lists handed to ClosePorts, in order. *)
Definition closed (tr : list event) : list (list IngressRule) :=
  flat_map
    (fun e =>
       match e with
       | Event o _ =>
           match o with
           | ClosePorts rules => [rules]
           | _ => []
           end
       end) tr.

(** How a caller that traces the error of a step sees it. *)
Definition traced (err : error) : error :=
  match err with
  | Some e => Some (errors.Trace e)
  | None => None
  end.

(** The test of the sweep on one instance, as section 4.3 of the spec words
    it: the controller tag is the target and the model tag is not the
    environ's own. *)
Definition hosted_by (JujuModel JujuController : string)
    (env : environ) (controllerUUID : string) (inst : environInstance) : bool :=
  String.eqb (index (inst_Metadata (inst_raw inst)) JujuController) controllerUUID
  && negb (String.eqb (index (inst_Metadata (inst_raw inst)) JujuModel) (uuid env)).


(** Bootstrap reached the generic strategy. *)
Definition delegated (tr : list event) : bool :=
  existsb (on_event is_BootstrapEnv) tr.

(** The failure condition of the trust step as section 4.1 of the spec words
    it: "no client certificate is configured", or the lookup fails other than
    by not-found, or "the registration call fails for a reason other than
    already exists". *)
Definition trust_failure_in_spec_words (Fingerprint : Cert -> result string)
    {W : Type} (h : handler W) (w : W) (env : environ) : Prop :=
  getCerts (cloud env) = None \/
  (exists c srv fp e,
      getCerts (cloud env) = Some (c, srv) /\ Fingerprint c = Ok fp /\
      (h _ (CertByFingerprint fp) w).1 = Err e /\
      errors.IsNotFound (Some e) = false) \/
  (exists c srv fp e',
      getCerts (cloud env) = Some (c, srv) /\ Fingerprint c = Ok fp /\
      errors.IsNotFound (err_of (h _ (CertByFingerprint fp) w).1) = true /\
      (h _ (AddCert c) (h _ (CertByFingerprint fp) w).2).1 = Some e' /\
      errors.IsAlreadyExists (Some e') = false).


(** The shapes a run of Destroy can take. *)
Inductive Destroy_run {W : Type} (h : handler W) (w : W)
  : error * W * list event -> Prop :=
| enumeration_failed e w1 :
    h _ IngressRules w = (Err e, w1) ->
    Destroy_run h w (Some (Trace e), w1, [Event IngressRules (Err e)])
| nothing_to_close w1 d w2 :
    h _ IngressRules w = (Ok [], w1) ->
    h _ DestroyEnv w1 = (d, w2) ->
    Destroy_run h w
      (traced d, w2, [Event IngressRules (Ok []); Event DestroyEnv d])
| closing_failed rules w1 e w2 :
    rules <> [] ->
    h _ IngressRules w = (Ok rules, w1) ->
    h _ (ClosePorts rules) w1 = (Some e, w2) ->
    Destroy_run h w
      (Some (Trace e), w2,
       [Event IngressRules (Ok rules); Event (ClosePorts rules) (Some e)])
| closed_then_destroyed rules w1 w2 d w3 :
    rules <> [] ->
    h _ IngressRules w = (Ok rules, w1) ->
    h _ (ClosePorts rules) w1 = (None, w2) ->
    h _ DestroyEnv w2 = (d, w3) ->
    Destroy_run h w
      (traced d, w3,
       [Event IngressRules (Ok rules); Event (ClosePorts rules) None;
        Event DestroyEnv d]).

(** ** Sample data *)

Module sample.

Definition Fingerprint (c : Cert) : result string :=
  if String.eqb (CertPEM c) "" then Err (errors.New "no PEM block")
  else Ok ("sha256:" +:+ CertPEM c).

Definition newValidConfig (cfg : config.Config) : result environConfig :=
  if String.eqb (cfg_Name cfg) "" then Err (errors.New "empty name")
  else Ok {| ec_Config := cfg; ec_attrs := ∅ |}.

Definition NewNamespace (u : string) : result Namespace :=
  if String.eqb u "" then Err (errors.New "invalid model UUID")
  else Ok (mkNamespace ("juju-" +:+ u)).

Definition JujuModel : string := "juju-model-uuid".
Definition JujuController : string := "juju-controller-uuid".

Definition cert : Cert := mkCert "juju-client-certificate" "PEM" "KEY".
Definition spec : CloudSpec := mkCloudSpec "unix:///var/lib/lxd/unix.socket" (Some cert) "".
Definition cfg : config.Config := mkConfig "controller" "abc-123" ∅.
Definition bad_cfg : config.Config := mkConfig "" "abc-123" ∅.
Definition ctx : BootstrapContext := mkBootstrapContext false.
Definition params : BootstrapParams := mkBootstrapParams "ctrl-1" "xenial".

Definition connect (s : CloudSpec) (l : bool) : Prog (result rawProvider) :=
  call (NewRawProvider s l).

Definition env (loc : bool) : environ :=
  {| cloud := spec; local := loc; name := "controller"; uuid := "abc-123";
     raw := {| remote := {| remote_Name := "local"; remote_Cert := Some cert |} |};
     namespace := mkNamespace "juju-abc-123";
     ecfg := {| ec_Config := cfg; ec_attrs := ∅ |} |}.

(** An environ whose client certificate has no PEM block to fingerprint. *)
Definition blank_env : environ :=
  {| cloud := mkCloudSpec "unix:///var/lib/lxd/unix.socket"
                (Some (mkCert "juju-client-certificate" "" "KEY")) "";
     local := true; name := "controller"; uuid := "abc-123";
     raw := {| remote := {| remote_Name := "local"; remote_Cert := None |} |};
     namespace := mkNamespace "juju-abc-123";
     ecfg := {| ec_Config := cfg; ec_attrs := ∅ |} |}.

Definition tagged (id model controller : string) : environInstance :=
  mkEnvironInstance
    (mkInstance id {[ JujuModel := model; JujuController := controller ]}).

(** The instances of the scenario of the spec. *)
Definition instances (kM kC : string) : list environInstance :=
  [ mkEnvironInstance (mkInstance "juju-0" {[ kM := "abc-123"; kC := "ctrl-1" ]});
    mkEnvironInstance (mkInstance "juju-1" {[ kM := "xyz-999"; kC := "ctrl-1" ]});
    mkEnvironInstance (mkInstance "juju-2" {[ kM := "xyz-999"; kC := "ctrl-2" ]}) ].

Definition rule : IngressRule := mkIngressRule 80 80 "tcp" ["0.0.0.0/0"].

Definition empty : Hypervisor := mkHypervisor [] ∅ [] [] [].

Definition server : handler Hypervisor :=
  hypervisor Fingerprint JujuModel JujuController "abc-123".

(** A server that answers the listing with a fixed list and accepts every
    other call. *)
Definition canned (listing : list environInstance) : handler unit :=
  fun T o w =>
    (match o in Op T return T with
     | NewRawProvider s _ =>
         Ok {| remote := {| remote_Name := Endpoint s; remote_Cert := ClientCert s |} |}
     | HasProfile _ => Ok true
     | CreateProfile _ _ => None
     | CertByFingerprint fp => Ok (mkCertInfo fp "")
     | AddCert _ => None
     | RemoveCertByFingerprint _ => None
     | prefixedInstances _ => Ok listing
     | RemoveInstances _ _ => None
     | IngressRules => Ok []
     | ClosePorts _ => None
     | BootstrapEnv _ p => Ok {| Arch := "amd64"; Series := BootstrapSeries p |}
     | DestroyEnv => None
     | EnableHTTPSListener => None
     end, w).

End sample.

(** ** More readers of runs *)

(** The error a call answered, nil when it succeeded. *)
Definition answered (ev : event) : error :=
  match ev with
  | Event o a =>
      match o in Op T return T -> error with
      | NewRawProvider _ _ => err_of
      | HasProfile _ => err_of
      | CreateProfile _ _ => fun x => x
      | CertByFingerprint _ => err_of
      | AddCert _ => fun x => x
      | RemoveCertByFingerprint _ => fun x => x
      | prefixedInstances _ => err_of
      | RemoveInstances _ _ => fun x => x
      | IngressRules => err_of
      | ClosePorts _ => fun x => x
      | BootstrapEnv _ _ => err_of
      | DestroyEnv => fun x => x
      | EnableHTTPSListener => fun x => x
      end a
  end.

(** The certificates handed to AddCert, with the answers. *)
Definition registrations (tr : list event) : list (Cert * error) :=
  flat_map
    (fun ev =>
       match ev with
       | Event o a =>
           match o in Op T return T -> list (Cert * error) with
           | AddCert c => fun x => [(c, x)]
           | _ => fun _ => []
           end a
       end) tr.

(** The fingerprints looked up, and the fingerprints handed to
    RemoveCertByFingerprint. *)
Definition lookups (tr : list event) : list string :=
  flat_map
    (fun ev =>
       match ev with
       | Event o _ =>
           match o with
           | CertByFingerprint fp => [fp]
           | _ => []
           end
       end) tr.

Definition removals (tr : list event) : list string :=
  flat_map
    (fun ev =>
       match ev with
       | Event o _ =>
           match o with
           | RemoveCertByFingerprint fp => [fp]
           | _ => []
           end
       end) tr.

(** A run whose calls all succeeded but the last, which answered [e0]. *)
Definition failed_at_last (tr : list event) (e0 : errors.errval) : Prop :=
  exists tr0 ev,
    tr = tr0 ++ [ev] /\
    Forall (fun x => answered x = None) tr0 /\
    answered ev = Some e0.

(** SetConfig called with one configuration after the other; the errors are
    dropped, as a caller that ignores them would. *)
Definition SetConfigs (newValidConfig : config.Config -> result environConfig)
    (cfgs : list config.Config) (env : environ) : environ :=
  fold_left (fun e cfg => (SetConfig newValidConfig cfg e).1) cfgs env.

(** The validated form of the last configuration of a list that validates. *)
Definition last_valid (newValidConfig : config.Config -> result environConfig)
    (cfgs : list config.Config) : option environConfig :=
  fold_left
    (fun acc cfg =>
       match newValidConfig cfg with
       | Ok ecfg0 => Some ecfg0
       | Err _ => acc
       end) cfgs None.

(** The shapes a run of Bootstrap can take. *)
Inductive Bootstrap_run (Fingerprint : Cert -> result string)
    {W : Type} (h : handler W) (w : W) (env : environ)
    (ctx : BootstrapContext) (params : BootstrapParams)
  : result BootstrapResult * W * list event -> Prop :=
| remote_delegates b w1 :
    local env = false ->
    h _ (BootstrapEnv ctx params) w = (b, w1) ->
    Bootstrap_run Fingerprint h w env ctx params
      (b, w1, [Event (BootstrapEnv ctx params) b])
| no_certificate :
    local env = true ->
    getCerts (cloud env) = None ->
    Bootstrap_run Fingerprint h w env ctx params
      (Err (errors.New "cannot bootstrap without client certificate"), w, [])
| no_fingerprint c srv e :
    local env = true ->
    getCerts (cloud env) = Some (c, srv) ->
    Fingerprint c = Err e ->
    Bootstrap_run Fingerprint h w env ctx params (Err (errors.Trace e), w, [])
| lookup_failed c srv fp e w1 :
    local env = true ->
    getCerts (cloud env) = Some (c, srv) ->
    Fingerprint c = Ok fp ->
    h _ (CertByFingerprint fp) w = (Err e, w1) ->
    errors.IsNotFound (Some e) = false ->
    Bootstrap_run Fingerprint h w env ctx params
      (Err (errors.Annotate e "querying certificates"), w1,
       [Event (CertByFingerprint fp) (Err e)])
| already_trusted c srv fp ci w1 b w2 :
    local env = true ->
    getCerts (cloud env) = Some (c, srv) ->
    Fingerprint c = Ok fp ->
    h _ (CertByFingerprint fp) w = (Ok ci, w1) ->
    h _ (BootstrapEnv ctx params) w1 = (b, w2) ->
    Bootstrap_run Fingerprint h w env ctx params
      (b, w2, [Event (CertByFingerprint fp) (Ok ci);
               Event (BootstrapEnv ctx params) b])
| registration_failed c srv fp e w1 e' w2 :
    local env = true ->
    getCerts (cloud env) = Some (c, srv) ->
    Fingerprint c = Ok fp ->
    h _ (CertByFingerprint fp) w = (Err e, w1) ->
    errors.IsNotFound (Some e) = true ->
    h _ (AddCert c) w1 = (Some e', w2) ->
    Bootstrap_run Fingerprint h w env ctx params
      (Err (errors.Annotatef e' "adding certificate %q" [cert_Name c]), w2,
       [Event (CertByFingerprint fp) (Err e); Event (AddCert c) (Some e')])
| registered_then_delegates c srv fp e w1 w2 b w3 :
    local env = true ->
    getCerts (cloud env) = Some (c, srv) ->
    Fingerprint c = Ok fp ->
    h _ (CertByFingerprint fp) w = (Err e, w1) ->
    errors.IsNotFound (Some e) = true ->
    h _ (AddCert c) w1 = (None, w2) ->
    h _ (BootstrapEnv ctx params) w2 = (b, w3) ->
    Bootstrap_run Fingerprint h w env ctx params
      (b, w3, [Event (CertByFingerprint fp) (Err e); Event (AddCert c) None;
               Event (BootstrapEnv ctx params) b]).

(** The fingerprint of the certificate of the raw remote, when it has a
    certificate and the fingerprint can be computed. *)
Definition own_fingerprint (Fingerprint : Cert -> result string)
    (env : environ) : list string :=
  match remote_Cert (remote (raw env)) with
  | Some c => match Fingerprint c with Ok fp => [fp] | Err _ => [] end
  | None => []
  end.

(** A server in the state of the scenario of the spec: the three instances,
    one open rule, and the client certificate in the trust store. *)
Definition scenario_server : Hypervisor :=
  mkHypervisor
    [mkCertInfo "sha256:PEM" "juju-client-certificate"] ∅
    (map inst_raw (sample.instances sample.JujuModel sample.JujuController))
    [sample.rule] [].

(** The certificate lookup. *)
Definition is_CertByFingerprint (T : Type) (o : Op T) : bool :=
  match o with CertByFingerprint _ => true | _ => false end.

(** * Properties *)

(** ** Running programs *)

Lemma run_bind {W A B : Type} (h : handler W) (p : Prog A) (f : A -> Prog B) (w : W) :
  run h (bind p f) w =
  (returned (run h (f (returned (run h p w))) (world_after (run h p w))),
   world_after (run h (f (returned (run h p w))) (world_after (run h p w))),
   trace (run h p w) ++ trace (run h (f (returned (run h p w))) (world_after (run h p w)))).
Proof.
  revert w. induction p as [a | T o k IH]; intros w; simpl.
  - unfold returned, world_after, trace; simpl.
    destruct (run h (f a) w) as [[b w2] tr]; reflexivity.
  - destruct (h T o w) as [t w1] eqn:Hh.
    rewrite IH.
    unfold returned, world_after, trace; simpl.
    destruct (run h (k t) w1) as [[a w2] tr]; simpl.
    destruct (run h (f a) w2) as [[b w3] tr']; reflexivity.
Qed.

Lemma run_call {W T : Type} (h : handler W) (o : Op T) (w : W) :
  run h (call o) w = ((h T o w).1, (h T o w).2, [Event o (h T o w).1]).
Proof.
  unfold call; simpl. destruct (h T o w) as [t w1]; reflexivity.
Qed.

Lemma run_Vis {W A T : Type} (h : handler W) (o : Op T) (k : T -> Prog A)
    (w w1 : W) (t : T) :
  h T o w = (t, w1) ->
  run h (Vis o k) w =
  (returned (run h (k t) w1), world_after (run h (k t) w1),
   Event o t :: trace (run h (k t) w1)).
Proof.
  intros Hh; simpl; rewrite Hh.
  destruct (run h (k t) w1) as [[a w2] tr]; reflexivity.
Qed.

Lemma triple_eta {A W : Type} (x : A * W * list event) :
  x = (returned x, world_after x, trace x).
Proof. destruct x as [[a w] tr]; reflexivity. Qed.

Lemma trace_of {A W : Type} (a : A) (w : W) (tr : list event) :
  trace (a, w, tr) = tr.
Proof. reflexivity. Qed.

Lemma returned_of {A W : Type} (a : A) (w : W) (tr : list event) :
  returned (a, w, tr) = a.
Proof. reflexivity. Qed.

Lemma world_after_of {A W : Type} (a : A) (w : W) (tr : list event) :
  world_after (a, w, tr) = w.
Proof. reflexivity. Qed.

Lemma removed_app (tr1 tr2 : list event) :
  removed (tr1 ++ tr2) = removed tr1 ++ removed tr2.
Proof. unfold removed. apply flat_map_app. Qed.

(** ** The profile *)

Lemma initProfile_present {W : Type} (h : handler W) (w w1 : W) (env : environ) :
  h _ (HasProfile (profileName env)) w = (Ok true, w1) ->
  run h (initProfile env) w = (None, w1, [Event (HasProfile (profileName env)) (Ok true)]).
Proof.
  intros Hh. unfold initProfile, call; simpl. rewrite Hh; reflexivity.
Qed.

Lemma initProfile_absent {W : Type} (h : handler W) (w w1 w2 : W) (env : environ)
    (ans : error) :
  h _ (HasProfile (profileName env)) w = (Ok false, w1) ->
  h _ (CreateProfile (profileName env) defaultProfileConfig) w1 = (ans, w2) ->
  run h (initProfile env) w =
  (ans, w2, [Event (HasProfile (profileName env)) (Ok false);
             Event (CreateProfile (profileName env) defaultProfileConfig) ans]).
Proof.
  intros Hh Hc. unfold initProfile, call; simpl. rewrite Hh; simpl.
  rewrite Hc; reflexivity.
Qed.

Lemma initProfile_unreachable {W : Type} (h : handler W) (w w1 : W) (env : environ)
    (e : errval) :
  h _ (HasProfile (profileName env)) w = (Err e, w1) ->
  run h (initProfile env) w =
  (Some (Trace e), w1, [Event (HasProfile (profileName env)) (Err e)]).
Proof.
  intros Hh. unfold initProfile, call; simpl. rewrite Hh; reflexivity.
Qed.

(** Every run of initProfile starts with the existence check and makes at
    most one create call after it. *)
Lemma initProfile_trace {W : Type} (h : handler W) (w : W) (env : environ) :
  exists ans rest,
    trace (run h (initProfile env) w) = Event (HasProfile (profileName env)) ans :: rest /\
    (rest = [] \/
     exists err, ans = Ok false /\
       rest = [Event (CreateProfile (profileName env) defaultProfileConfig) err]).
Proof.
  unfold initProfile, call; simpl.
  destruct (h _ (HasProfile (profileName env)) w) as [[[|]|e] w1]; simpl.
  - eexists _, _; split; [reflexivity | left; reflexivity].
  - destruct (h _ (CreateProfile (profileName env) defaultProfileConfig) w1)
      as [err w2]; simpl.
    eexists _, _; split; [reflexivity | right; eexists; split; reflexivity].
  - eexists _, _; split; [reflexivity | left; reflexivity].
Qed.

Section Construction.

Variable newValidConfig : config.Config -> result environConfig.
Variable NewNamespace : string -> result Namespace.

(** The environ that newEnviron assembles before it initialises the
    profile. *)
Lemma newEnviron_steps {W : Type} (h : handler W) (w : W)
    (loc : bool) (spec : CloudSpec) (cfg : config.Config)
    (newRawProvider : CloudSpec -> bool -> Prog (result rawProvider))
    (ecfg0 : environConfig) (ns0 : Namespace) (raw0 : rawProvider) :
  newValidConfig cfg = Ok ecfg0 ->
  NewNamespace (cfg_UUID cfg) = Ok ns0 ->
  returned (run h (newRawProvider spec loc) w) = Ok raw0 ->
  let env := {| cloud := spec; local := loc; name := ec_Name ecfg0;
                uuid := ec_UUID ecfg0; raw := raw0; namespace := ns0;
                ecfg := ecfg0 |} in
  let connected := run h (newRawProvider spec loc) w in
  let inited := run h (initProfile env) (world_after connected) in
  run h (newEnviron newValidConfig NewNamespace loc spec cfg newRawProvider) w =
  (match returned inited with
   | Some e => (None, Some (Trace e))
   | None => (Some env, None)
   end,
   world_after inited, trace connected ++ trace inited).
Proof.
  intros Hv Hn Hr env connected inited.
  unfold newEnviron. rewrite Hv, Hn, run_bind, Hr, run_bind.
  fold env connected inited.
  destruct (returned inited) as [e|]; simpl; rewrite app_nil_r; reflexivity.
Qed.

End Construction.

Lemma hypervisor_quiet (F : Cert -> result string) (kM kC self : string)
    {T : Type} (o : Op T) (w : Hypervisor) :
  faults w = [] ->
  hypervisor F kM kC self T o w = serve F kM kC self o w.
Proof. intros Hf. unfold hypervisor. rewrite Hf. reflexivity. Qed.

Lemma initProfile_on_hypervisor_present (F : Cert -> result string)
    (kM kC self : string) (w : Hypervisor) (env : environ)
    (s : gmap string string) :
  faults w = [] ->
  profiles w !! profileName env = Some s ->
  run (hypervisor F kM kC self) (initProfile env) w =
  (None, w, [Event (HasProfile (profileName env)) (Ok true)]).
Proof.
  intros Hf Hp. apply initProfile_present.
  rewrite hypervisor_quiet by exact Hf. simpl.
  rewrite Hp. rewrite bool_decide_eq_true_2 by (eexists; reflexivity).
  reflexivity.
Qed.

Lemma initProfile_on_hypervisor_absent (F : Cert -> result string)
    (kM kC self : string) (w : Hypervisor) (env : environ) :
  faults w = [] ->
  profiles w !! profileName env = None ->
  run (hypervisor F kM kC self) (initProfile env) w =
  (None,
   {| trust := trust w;
      profiles := <[profileName env := defaultProfileConfig]> (profiles w);
      containers := containers w; ingress := ingress w; faults := faults w |},
   [Event (HasProfile (profileName env)) (Ok false);
    Event (CreateProfile (profileName env) defaultProfileConfig) None]).
Proof.
  intros Hf Hp. eapply initProfile_absent.
  - rewrite hypervisor_quiet by exact Hf. simpl.
    rewrite Hp. rewrite bool_decide_eq_false_2; [reflexivity |].
    intros [x Hx]; discriminate.
  - rewrite hypervisor_quiet by exact Hf. simpl. rewrite Hp. reflexivity.
Qed.

(** C6.  Profile initialisation checks the existence of the profile named
    "juju-" followed by the name of the environ (at construction, the display
    name of the environ that is built).  When the check answers that the
    profile is present, initProfile returns nil after that single call: no
    create call is made.  When it answers absent, initProfile makes one create
    call for that name with exactly the settings boot.autostart = "true" and
    security.nesting = "true" and returns what the call returns.  On a server
    whose profile store follows the consumed interface, initialising again
    after a successful initialisation changes nothing, creates nothing and
    returns nil; and constructing the environ named "controller" on a server
    without profiles creates "juju-controller" with those settings, while a
    second construction leaves the server as it is. *)
Theorem initProfile_checks_then_creates :
  forall (W : Type) (h : handler W) (w : W) (env : environ),
    let pn := "juju-" +:+ ec_Name (ecfg env) in
    let settings : gmap string string :=
      {[ "boot.autostart" := "true"; "security.nesting" := "true" ]} in
    (forall w1 : W,
        h _ (HasProfile pn) w = (Ok true, w1) ->
        run h (initProfile env) w = (None, w1, [Event (HasProfile pn) (Ok true)])) /\
    (forall (w1 w2 : W) (ans : error),
        h _ (HasProfile pn) w = (Ok false, w1) ->
        h _ (CreateProfile pn settings) w1 = (ans, w2) ->
        run h (initProfile env) w =
        (ans, w2, [Event (HasProfile pn) (Ok false);
                   Event (CreateProfile pn settings) ans])) /\
    (forall (newValidConfig : config.Config -> result environConfig)
            (NewNamespace : string -> result Namespace)
            (loc : bool) (spec : CloudSpec) (cfg : config.Config)
            (newRawProvider : CloudSpec -> bool -> Prog (result rawProvider))
            (built : environ),
        let r := run h (newEnviron newValidConfig NewNamespace loc spec cfg
                          newRawProvider) w in
        returned r = (Some built, None) ->
        let pn' := "juju-" +:+ name built in
        trace r = trace (run h (newRawProvider spec loc) w) ++
                  [Event (HasProfile pn') (Ok true)] \/
        trace r = trace (run h (newRawProvider spec loc) w) ++
                  [Event (HasProfile pn') (Ok false);
                   Event (CreateProfile pn' settings) None]) /\
    (forall (F : Cert -> result string) (kM kC self : string) (s : Hypervisor),
        faults s = [] ->
        let once := run (hypervisor F kM kC self) (initProfile env) s in
        let twice := run (hypervisor F kM kC self) (initProfile env)
                       (world_after once) in
        returned once = None /\
        profiles (world_after once) !! pn <> None /\
        (profiles s !! pn = None ->
         profiles (world_after once) = <[pn := settings]> (profiles s)) /\
        (profiles s !! pn <> None -> world_after once = s) /\
        twice = (None, world_after once, [Event (HasProfile pn) (Ok true)])) /\
    (let construct :=
       newEnviron sample.newValidConfig sample.NewNamespace true sample.spec
         sample.cfg sample.connect in
     let first := run sample.server construct sample.empty in
     let second := run sample.server construct (world_after first) in
     profiles (world_after first) = {[ "juju-controller" := settings ]} /\
     world_after second = world_after first /\
     returned second = returned first /\
     (exists built, returned second = (Some built, None)) /\
     filter (fun e => on_event is_CreateProfile e = true) (trace second) = []).
Proof.
  intros W h w env pn settings.
  change pn with (profileName env).
  change settings with defaultProfileConfig.
  split; [| split; [| split; [| split]]].
  - intros w1 Hh. apply initProfile_present; exact Hh.
  - intros w1 w2 ans Hh Hc. eapply initProfile_absent; eassumption.
  - intros nvc nns loc spec cfg nrp built r Hret pn'.
    subst r. revert Hret.
    destruct (nvc cfg) as [ecfg0|e0] eqn:Hv;
      [| unfold newEnviron; rewrite Hv; discriminate].
    destruct (nns (cfg_UUID cfg)) as [ns0|e0] eqn:Hn;
      [| unfold newEnviron; rewrite Hv, Hn; discriminate].
    destruct (returned (run h (nrp spec loc) w)) as [raw0|e0] eqn:Hr.
    2:{ unfold newEnviron. rewrite Hv, Hn, run_bind, Hr. discriminate. }
    rewrite (newEnviron_steps nvc nns h w loc spec cfg nrp ecfg0 ns0 raw0 Hv Hn Hr).
    set (env' := {| cloud := spec; local := loc; name := ec_Name ecfg0;
                    uuid := ec_UUID ecfg0; raw := raw0; namespace := ns0;
                    ecfg := ecfg0 |}).
    set (w1 := world_after (run h (nrp spec loc) w)).
    unfold returned at 1, trace at 1, trace at 2; simpl.
    unfold initProfile, call; simpl.
    change (profileName env') with ("juju-" +:+ ec_Name ecfg0).
    destruct (h _ (HasProfile ("juju-" +:+ ec_Name ecfg0)) w1) as [[[|]|e] w2];
      simpl.
    + intros Heq; injection Heq as <-. left; reflexivity.
    + destruct (h _ (CreateProfile ("juju-" +:+ ec_Name ecfg0) defaultProfileConfig) w2)
        as [[e|] w3]; simpl.
      * discriminate.
      * intros Heq; injection Heq as <-. right; reflexivity.
    + discriminate.
  - intros F kM kC self s Hf once twice.
    destruct (profiles s !! profileName env) as [cfg0|] eqn:Hp.
    + assert (Honce : once = (None, s, [Event (HasProfile (profileName env)) (Ok true)])).
      { subst once. eapply initProfile_on_hypervisor_present; eassumption. }
      subst twice. rewrite Honce. unfold returned, world_after; simpl.
      repeat split.
      * rewrite Hp; discriminate.
      * intros; discriminate.
      * eapply initProfile_on_hypervisor_present; eassumption.
    + assert (Honce : once = _) by
        (subst once; apply initProfile_on_hypervisor_absent; eassumption).
      subst twice. rewrite Honce. unfold returned, world_after; simpl.
      repeat split.
      * rewrite lookup_insert_eq; discriminate.
      * intros Hne; contradiction Hne; reflexivity.
      * eapply initProfile_on_hypervisor_present; simpl; [exact Hf |].
        apply lookup_insert_eq.
  - vm_compute. repeat split. eexists; reflexivity.
Qed.

Lemma initProfile_checks_then_creates_witness :
  run sample.server (initProfile (sample.env true)) sample.empty =
  (None,
   mkHypervisor [] {[ "juju-controller" := defaultProfileConfig ]} [] [] [],
   [Event (HasProfile "juju-controller") (Ok false);
    Event (CreateProfile "juju-controller" defaultProfileConfig) None]).
Proof.
  apply (proj1 (proj2 (initProfile_checks_then_creates
                         Hypervisor sample.server sample.empty (sample.env true))))
    with (w1 := sample.empty); reflexivity.
Defined.

(** ** Construction *)

(** C7.  Construction is all or nothing.  Either newEnviron returns an
    environ with a nil error, and then validation, namespace derivation, the
    connection and profile initialisation all succeeded and the environ is the
    one assembled from their results; or it returns a nil environ with an
    error, and then one of the four steps failed and the error wraps the error
    of that step.  Each failing step by itself forces the second outcome. *)
Theorem newEnviron_all_or_nothing :
  forall (newValidConfig : config.Config -> result environConfig)
         (NewNamespace : string -> result Namespace)
         (W : Type) (h : handler W) (w : W)
         (loc : bool) (spec : CloudSpec) (cfg : config.Config)
         (newRawProvider : CloudSpec -> bool -> Prog (result rawProvider)),
    let r := run h (newEnviron newValidConfig NewNamespace loc spec cfg
                      newRawProvider) w in
    let connected := run h (newRawProvider spec loc) w in
    let assembled ecfg0 ns0 raw0 :=
      {| cloud := spec; local := loc; name := ec_Name ecfg0;
         uuid := ec_UUID ecfg0; raw := raw0; namespace := ns0; ecfg := ecfg0 |} in
    let inited env := run h (initProfile env) (world_after connected) in
    ((exists env ecfg0 ns0 raw0,
         returned r = (Some env, None) /\
         newValidConfig cfg = Ok ecfg0 /\
         NewNamespace (cfg_UUID cfg) = Ok ns0 /\
         returned connected = Ok raw0 /\
         env = assembled ecfg0 ns0 raw0 /\
         returned (inited env) = None)
     \/
     (exists e,
         returned r = (None, Some e) /\
         ((exists e0, newValidConfig cfg = Err e0 /\
                      e = Annotate e0 "invalid config") \/
          (exists ecfg0 e0, newValidConfig cfg = Ok ecfg0 /\
                      NewNamespace (cfg_UUID cfg) = Err e0 /\ e = Trace e0) \/
          (exists ecfg0 ns0 e0, newValidConfig cfg = Ok ecfg0 /\
                      NewNamespace (cfg_UUID cfg) = Ok ns0 /\
                      returned connected = Err e0 /\ e = Trace e0) \/
          (exists ecfg0 ns0 raw0 e0, newValidConfig cfg = Ok ecfg0 /\
                      NewNamespace (cfg_UUID cfg) = Ok ns0 /\
                      returned connected = Ok raw0 /\
                      returned (inited (assembled ecfg0 ns0 raw0)) = Some e0 /\
                      e = Trace e0)))) /\
    (forall env err, returned r = (env, err) ->
                     (env = None <-> err <> None) /\ (env <> None <-> err = None)).
Proof.
  intros nvc nns W h w loc spec cfg nrp r connected assembled inited.
  match goal with |- ?A /\ _ => assert (Hmain : A); [| split; [exact Hmain |]] end.
  - destruct (nvc cfg) as [ecfg0|e0] eqn:Hv.
    2:{ right. exists (Annotate e0 "invalid config"). split.
        - subst r. unfold newEnviron. rewrite Hv. reflexivity.
        - left. exists e0. split; reflexivity. }
    destruct (nns (cfg_UUID cfg)) as [ns0|e0] eqn:Hn.
    2:{ right. exists (Trace e0). split.
        - subst r. unfold newEnviron. rewrite Hv, Hn. reflexivity.
        - right; left. exists ecfg0, e0. repeat split. }
    destruct (returned connected) as [raw0|e0] eqn:Hr.
    2:{ right. exists (Trace e0). split.
        - subst r. unfold newEnviron. rewrite Hv, Hn, run_bind.
          fold connected. rewrite Hr. reflexivity.
        - right; right; left. exists ecfg0, ns0, e0. repeat split. }
    pose proof (newEnviron_steps nvc nns h w loc spec cfg nrp ecfg0 ns0 raw0
                  Hv Hn Hr) as Hsteps.
    cbv zeta in Hsteps. fold connected in Hsteps.
    fold (assembled ecfg0 ns0 raw0) in Hsteps.
    fold (inited (assembled ecfg0 ns0 raw0)) in Hsteps.
    destruct (returned (inited (assembled ecfg0 ns0 raw0))) as [e0|] eqn:Hi.
    + right. exists (Trace e0). split.
      * subst r. rewrite Hsteps. reflexivity.
      * right; right; right. exists ecfg0, ns0, raw0, e0. repeat split.
        exact Hi.
    + left. exists (assembled ecfg0 ns0 raw0), ecfg0, ns0, raw0.
      repeat split; try assumption.
      subst r. rewrite Hsteps. reflexivity.
  - intros env err Hret.
    destruct Hmain as [(env0 & ? & ? & ? & Hr & _) | (e & Hr & _)];
      rewrite Hr in Hret; injection Hret as <- <-;
      repeat split; intros; congruence.
Qed.

Lemma newEnviron_all_or_nothing_witness :
  (forall env err,
      returned (run sample.server
                  (newEnviron sample.newValidConfig sample.NewNamespace true
                     sample.spec sample.bad_cfg sample.connect) sample.empty)
      = (env, err) ->
      (env = None <-> err <> None) /\ (env <> None <-> err = None)) /\
  returned (run sample.server
              (newEnviron sample.newValidConfig sample.NewNamespace true
                 sample.spec sample.bad_cfg sample.connect) sample.empty)
  = (None, Some (Annotate (New "empty name") "invalid config")).
Proof.
  split.
  - exact (proj2 (newEnviron_all_or_nothing sample.newValidConfig
                    sample.NewNamespace Hypervisor sample.server sample.empty
                    true sample.spec sample.bad_cfg sample.connect)).
  - reflexivity.
Defined.

(** ** The configuration snapshot *)

(** C10.  SetConfig is atomic on error.  When validation of the supplied
    configuration fails, SetConfig returns the traced error and leaves the
    environ, hence the snapshot that Config returns, as it was; when
    validation succeeds it returns nil and Config returns the validated
    configuration.  So an error means an unchanged snapshot, and a changed
    snapshot means that validation succeeded. *)
Theorem SetConfig_atomic_on_error :
  forall (newValidConfig : config.Config -> result environConfig)
         (cfg : config.Config) (env : environ),
    let after := (SetConfig newValidConfig cfg env).1 in
    let err := (SetConfig newValidConfig cfg env).2 in
    (forall e, newValidConfig cfg = Err e ->
               err = Some (Trace e) /\ after = env /\ Config after = Config env) /\
    (forall ecfg0, newValidConfig cfg = Ok ecfg0 ->
               err = None /\ ecfg after = ecfg0 /\
               Config after = ec_Config ecfg0 /\
               cloud after = cloud env /\ local after = local env /\
               name after = name env /\ uuid after = uuid env /\
               raw after = raw env /\ namespace after = namespace env) /\
    (err <> None -> after = env /\ Config after = Config env) /\
    (err <> None <-> exists e, newValidConfig cfg = Err e) /\
    (Config after <> Config env ->
     err = None /\ exists ecfg0, newValidConfig cfg = Ok ecfg0).
Proof.
  intros nvc cfg env after err. subst after err. unfold SetConfig.
  destruct (nvc cfg) as [ecfg0|e0]; simpl.
  - split; [intros e He; discriminate |].
    split; [intros ecfg1 He; injection He as <-; repeat split |].
    split; [intros Hne; contradiction Hne; reflexivity |].
    split; [split; [intros Hne; contradiction Hne; reflexivity
                   | intros [e He]; discriminate] |].
    intros _; split; [reflexivity | eexists; reflexivity].
  - split; [intros e He; injection He as <-; repeat split |].
    split; [intros ecfg1 He; discriminate |].
    split; [intros _; split; reflexivity |].
    split; [split; [intros _; eexists; reflexivity | intros _; discriminate] |].
    intros Hne; contradiction Hne; reflexivity.
Qed.

Lemma SetConfig_atomic_on_error_witness :
  Config (SetConfig sample.newValidConfig sample.bad_cfg (sample.env true)).1
  = sample.cfg /\
  (SetConfig sample.newValidConfig sample.bad_cfg (sample.env true)).2
  = Some (Trace (New "empty name")).
Proof.
  destruct (proj1 (SetConfig_atomic_on_error sample.newValidConfig
                     sample.bad_cfg (sample.env true))
              (New "empty name") eq_refl) as (Herr & _ & Hcfg).
  split; [exact Hcfg | exact Herr].
Defined.

(** ** Certificate removal *)

Section Removal.

Variable Fingerprint : Cert -> result string.

Lemma removeCertificate_no_cert {W : Type} (h : handler W) (w : W) (env : environ) :
  remote_Cert (remote (raw env)) = None ->
  run h (removeCertificate Fingerprint env) w = (None, w, []).
Proof. intros Hc. unfold removeCertificate. rewrite Hc. reflexivity. Qed.

Lemma removeCertificate_no_fingerprint {W : Type} (h : handler W) (w : W)
    (env : environ) (cert : Cert) (e : errval) :
  remote_Cert (remote (raw env)) = Some cert ->
  Fingerprint cert = Err e ->
  run h (removeCertificate Fingerprint env) w =
  (Some (Annotate e "generating certificate fingerprint"), w, []).
Proof. intros Hc Hf. unfold removeCertificate. rewrite Hc, Hf. reflexivity. Qed.

Lemma removeCertificate_call {W : Type} (h : handler W) (w w1 : W)
    (env : environ) (cert : Cert) (fp : string) (ans : error) :
  remote_Cert (remote (raw env)) = Some cert ->
  Fingerprint cert = Ok fp ->
  h _ (RemoveCertByFingerprint fp) w = (ans, w1) ->
  run h (removeCertificate Fingerprint env) w =
  (match ans with
   | Some e => if IsNotFound ans then None
               else Some (Annotate e "removing certificate")
   | None => None
   end, w1, [Event (RemoveCertByFingerprint fp) ans]).
Proof.
  intros Hc Hf Hh. unfold removeCertificate. rewrite Hc, Hf.
  unfold call; simpl. rewrite Hh.
  destruct ans as [e|]; [| reflexivity].
  destruct (IsNotFound (Some e)); reflexivity.
Qed.

Lemma removeCertificate_ops {W : Type} (h : handler W) (w : W) (env : environ) :
  Forall (fun e => on_event removal_op e = true)
    (trace (run h (removeCertificate Fingerprint env) w)).
Proof.
  destruct (remote_Cert (remote (raw env))) as [cert|] eqn:Hc.
  2:{ rewrite removeCertificate_no_cert by exact Hc. constructor. }
  destruct (Fingerprint cert) as [fp|e] eqn:Hf.
  2:{ erewrite removeCertificate_no_fingerprint by eassumption. constructor. }
  destruct (h _ (RemoveCertByFingerprint fp) w) as [ans w1] eqn:Hh.
  erewrite removeCertificate_call by eassumption.
  repeat constructor.
Qed.

End Removal.

(** C9.  Certificate removal tolerates absence.  When the environ has a
    certificate with a fingerprint, removeCertificate makes the one
    remove-by-fingerprint call; if the call reports not-found (an error whose
    cause is a not-found error) removeCertificate returns nil, as it does when
    the call succeeds; any other error of the call is returned, annotated with
    "removing certificate". *)
Theorem removeCertificate_tolerates_not_found :
  forall (Fingerprint : Cert -> result string)
         (W : Type) (h : handler W) (w w1 : W)
         (env : environ) (cert : Cert) (fp : string) (ans : error),
    remote_Cert (remote (raw env)) = Some cert ->
    Fingerprint cert = Ok fp ->
    h _ (RemoveCertByFingerprint fp) w = (ans, w1) ->
    let r := run h (removeCertificate Fingerprint env) w in
    trace r = [Event (RemoveCertByFingerprint fp) ans] /\
    world_after r = w1 /\
    (IsNotFound ans = true -> returned r = None) /\
    (ans = None -> returned r = None) /\
    (forall e, ans = Some e -> IsNotFound ans = false ->
               returned r = Some (Annotate e "removing certificate")) /\
    (returned r <> None <-> ans <> None /\ IsNotFound ans = false).
Proof.
  intros F W h w w1 env cert fp ans Hc Hf Hh r.
  subst r. rewrite (removeCertificate_call F h w w1 env cert fp ans Hc Hf Hh).
  unfold returned, world_after, trace; simpl.
  split; [reflexivity |]. split; [reflexivity |].
  destruct ans as [e|].
  - destruct (IsNotFound (Some e)) eqn:Hnf.
    + repeat split; try congruence. intros [_ ?]; congruence.
    + repeat split; try congruence.
  - repeat split; try congruence. intros [? _]; congruence.
Qed.

Lemma removeCertificate_tolerates_not_found_witness :
  let r := run sample.server (removeCertificate sample.Fingerprint (sample.env true))
             sample.empty in
  trace r = [Event (RemoveCertByFingerprint "sha256:PEM")
               (Some (NotFoundf "sha256:PEM"))] /\
  returned r = None.
Proof.
  destruct (removeCertificate_tolerates_not_found sample.Fingerprint Hypervisor
              sample.server sample.empty sample.empty (sample.env true)
              sample.cert "sha256:PEM" (Some (NotFoundf "sha256:PEM"))
              eq_refl eq_refl eq_refl) as (Htr & _ & Hnf & _).
  split; [exact Htr | exact (Hnf eq_refl)].
Defined.

(** ** Destroy *)

Lemma Destroy_enumeration_fails {W : Type} (h : handler W) (w w1 : W)
    (env : environ) (e : errval) :
  h _ IngressRules w = (Err e, w1) ->
  run h (Destroy env) w = (Some (Trace e), w1, [Event IngressRules (Err e)]).
Proof. intros Hh. unfold Destroy, call; simpl. rewrite Hh. reflexivity. Qed.

Lemma Destroy_none_open {W : Type} (h : handler W) (w w1 w2 : W)
    (env : environ) (d : error) :
  h _ IngressRules w = (Ok [], w1) ->
  h _ DestroyEnv w1 = (d, w2) ->
  run h (Destroy env) w =
  (traced d, w2, [Event IngressRules (Ok []); Event DestroyEnv d]).
Proof.
  intros Hh Hd. unfold Destroy, call; simpl. rewrite Hh; simpl. rewrite Hd.
  destruct d; reflexivity.
Qed.

Lemma Destroy_closing_fails {W : Type} (h : handler W) (w w1 w2 : W)
    (env : environ) (rules : list IngressRule) (e : errval) :
  rules <> [] ->
  h _ IngressRules w = (Ok rules, w1) ->
  h _ (ClosePorts rules) w1 = (Some e, w2) ->
  run h (Destroy env) w =
  (Some (Trace e), w2,
   [Event IngressRules (Ok rules); Event (ClosePorts rules) (Some e)]).
Proof.
  intros Hne Hh Hc. unfold Destroy, call; simpl. rewrite Hh.
  destruct rules as [|rule rules]; [contradiction Hne; reflexivity |].
  simpl. rewrite Hc. reflexivity.
Qed.

Lemma Destroy_closes_all {W : Type} (h : handler W) (w w1 w2 w3 : W)
    (env : environ) (rules : list IngressRule) (d : error) :
  rules <> [] ->
  h _ IngressRules w = (Ok rules, w1) ->
  h _ (ClosePorts rules) w1 = (None, w2) ->
  h _ DestroyEnv w2 = (d, w3) ->
  run h (Destroy env) w =
  (traced d, w3,
   [Event IngressRules (Ok rules); Event (ClosePorts rules) None;
    Event DestroyEnv d]).
Proof.
  intros Hne Hh Hc Hd. unfold Destroy, call; simpl. rewrite Hh.
  destruct rules as [|rule rules]; [contradiction Hne; reflexivity |].
  simpl. rewrite Hc; simpl. rewrite Hd. destruct d; reflexivity.
Qed.

Lemma Destroy_runs {W : Type} (h : handler W) (w : W) (env : environ) :
  Destroy_run h w (run h (Destroy env) w).
Proof.
  destruct (h _ IngressRules w) as [[rules|e] w1] eqn:Hh.
  2:{ erewrite Destroy_enumeration_fails by eassumption.
      constructor; assumption. }
  destruct rules as [|rule rules].
  - destruct (h _ DestroyEnv w1) as [d w2] eqn:Hd.
    erewrite Destroy_none_open by eassumption.
    econstructor; eassumption.
  - destruct (h _ (ClosePorts (rule :: rules)) w1) as [[e|] w2] eqn:Hc.
    + rewrite (Destroy_closing_fails h w w1 w2 env (rule :: rules) e
                 ltac:(discriminate) Hh Hc).
      econstructor; (eassumption || discriminate).
    + destruct (h _ DestroyEnv w2) as [d w3] eqn:Hd.
      rewrite (Destroy_closes_all h w w1 w2 w3 env (rule :: rules) d
                 ltac:(discriminate) Hh Hc Hd).
      econstructor; (eassumption || discriminate).
Qed.

Lemma Destroy_ops {W : Type} (h : handler W) (w : W) (env : environ) :
  Forall (fun e => on_event destroy_op e = true) (trace (run h (Destroy env) w)).
Proof.
  destruct (Destroy_runs h w env); unfold trace; simpl; repeat constructor.
Qed.

Lemma Destroy_removes_nothing {W : Type} (h : handler W) (w : W) (env : environ) :
  removed (trace (run h (Destroy env) w)) = [].
Proof. destruct (Destroy_runs h w env); reflexivity. Qed.

(** C3.  Destroy enumerates the open ingress rules first.  If the
    enumeration fails, the traced error is returned and nothing else is
    called.  If no rule is open, no close-ports call is made and Destroy goes
    on to the generic destroy.  If rules are open, the whole enumerated list is
    handed to one close-ports call before the generic destroy; a failure of the
    closing is returned, traced, and the generic destroy is not called.  The
    outcome of the generic destroy is the outcome of Destroy (its error
    traced).  So a successful Destroy has closed exactly the enumerated rules,
    and closed them before the generic destroy. *)
Theorem Destroy_closes_ports_first :
  forall (W : Type) (h : handler W) (w : W) (env : environ),
    let r := run h (Destroy env) w in
    (forall e w1,
        h _ IngressRules w = (Err e, w1) ->
        r = (Some (Trace e), w1, [Event IngressRules (Err e)])) /\
    (forall w1 d w2,
        h _ IngressRules w = (Ok [], w1) ->
        h _ DestroyEnv w1 = (d, w2) ->
        r = (traced d, w2, [Event IngressRules (Ok []); Event DestroyEnv d])) /\
    (forall rules w1 e w2,
        rules <> [] ->
        h _ IngressRules w = (Ok rules, w1) ->
        h _ (ClosePorts rules) w1 = (Some e, w2) ->
        r = (Some (Trace e), w2,
             [Event IngressRules (Ok rules); Event (ClosePorts rules) (Some e)])) /\
    (forall rules w1 w2 d w3,
        rules <> [] ->
        h _ IngressRules w = (Ok rules, w1) ->
        h _ (ClosePorts rules) w1 = (None, w2) ->
        h _ DestroyEnv w2 = (d, w3) ->
        r = (traced d, w3,
             [Event IngressRules (Ok rules); Event (ClosePorts rules) None;
              Event DestroyEnv d])) /\
    (returned r = None ->
     exists rules,
       (h _ IngressRules w).1 = Ok rules /\
       closed (trace r) = match rules with [] => [] | _ => [rules] end /\
       trace r =
         Event IngressRules (Ok rules)
         :: match rules with
            | [] => []
            | _ => [Event (ClosePorts rules) None]
            end ++ [Event DestroyEnv None]).
Proof.
  intros W h w env r. subst r.
  split; [intros; eapply Destroy_enumeration_fails; eassumption |].
  split; [intros; eapply Destroy_none_open; eassumption |].
  split; [intros; eapply Destroy_closing_fails; eassumption |].
  split; [intros; eapply Destroy_closes_all; eassumption |].
  destruct (Destroy_runs h w env) as [e w1 Hh | w1 d w2 Hh Hd
                                     | rules w1 e w2 Hne Hh Hc
                                     | rules w1 w2 d w3 Hne Hh Hc Hd];
    unfold returned, trace; simpl; intros Hret; try discriminate.
  - destruct d; [discriminate |].
    exists []. rewrite Hh. repeat split.
  - destruct d; [discriminate |].
    exists rules. rewrite Hh.
    destruct rules as [|rule rules]; [contradiction Hne; reflexivity |].
    repeat split.
Qed.

Lemma Destroy_closes_ports_first_witness :
  run sample.server (Destroy (sample.env true))
    (mkHypervisor [] ∅ [] [sample.rule] []) =
  (None, sample.empty,
   [Event IngressRules (Ok [sample.rule]); Event (ClosePorts [sample.rule]) None;
    Event DestroyEnv None]).
Proof.
  apply (proj1 (proj2 (proj2 (proj2
           (Destroy_closes_ports_first Hypervisor sample.server
              (mkHypervisor [] ∅ [] [sample.rule] []) (sample.env true)))))
           [sample.rule] (mkHypervisor [] ∅ [] [sample.rule] []) sample.empty
           None sample.empty);
    [discriminate | reflexivity | reflexivity | reflexivity].
Defined.

(** ** The sweep of hosted models *)

Section Sweep.

Variable Fingerprint : Cert -> result string.
Variable JujuModel : string.
Variable JujuController : string.

Lemma collect_from (env : environ) (controllerUUID : string)
    (instances : list environInstance) (names : list string) :
  fold_left
    (fun (names : list string) (inst : environInstance) =>
       let metadata := inst_Metadata (inst_raw inst) in
       if String.eqb (index metadata JujuModel) (uuid env) then names
       else if negb (String.eqb (index metadata JujuController) controllerUUID)
       then names
       else names ++ [Id inst])
    instances names =
  names ++ map Id (List.filter (hosted_by JujuModel JujuController env controllerUUID)
                     instances).
Proof.
  revert names. induction instances as [|inst instances IH]; intros names; simpl.
  - rewrite app_nil_r. reflexivity.
  - rewrite IH. unfold hosted_by at 2.
    destruct (String.eqb (index (inst_Metadata (inst_raw inst)) JujuModel) (uuid env));
      destruct (String.eqb (index (inst_Metadata (inst_raw inst)) JujuController)
                  controllerUUID); simpl; try reflexivity.
    rewrite <- app_assoc. reflexivity.
Qed.

(** The loop collects, in listing order, the identifiers of the instances
    that pass the test. *)
Lemma collect_filter (env : environ) (controllerUUID : string)
    (instances : list environInstance) :
  collect JujuModel JujuController env controllerUUID instances =
  map Id (List.filter (hosted_by JujuModel JujuController env controllerUUID)
            instances).
Proof. unfold collect. rewrite collect_from. reflexivity. Qed.

Lemma hosted_by_spec (env : environ) (controllerUUID : string)
    (inst : environInstance) :
  hosted_by JujuModel JujuController env controllerUUID inst = true <->
  index (inst_Metadata (inst_raw inst)) JujuController = controllerUUID /\
  index (inst_Metadata (inst_raw inst)) JujuModel <> uuid env.
Proof.
  unfold hosted_by. rewrite andb_true_iff, negb_true_iff.
  rewrite String.eqb_eq, String.eqb_neq. reflexivity.
Qed.

Lemma sweep_listing_fails {W : Type} (h : handler W) (w w1 : W)
    (env : environ) (controllerUUID : string) (e : errval) :
  h _ (prefixedInstances "juju-") w = (Err e, w1) ->
  run h (destroyHostedModelResources JujuModel JujuController env controllerUUID) w =
  (Some (Annotate e "listing instances"), w1,
   [Event (prefixedInstances "juju-") (Err e)]).
Proof.
  intros Hh. unfold destroyHostedModelResources, call; simpl. rewrite Hh.
  reflexivity.
Qed.

Lemma sweep_nothing_hosted {W : Type} (h : handler W) (w w1 : W)
    (env : environ) (controllerUUID : string)
    (instances : list environInstance) :
  h _ (prefixedInstances "juju-") w = (Ok instances, w1) ->
  collect JujuModel JujuController env controllerUUID instances = [] ->
  run h (destroyHostedModelResources JujuModel JujuController env controllerUUID) w =
  (None, w1, [Event (prefixedInstances "juju-") (Ok instances)]).
Proof.
  intros Hh Hc. unfold destroyHostedModelResources, call; simpl. rewrite Hh.
  simpl. rewrite Hc. reflexivity.
Qed.

Lemma sweep_removes_batch {W : Type} (h : handler W) (w w1 w2 : W)
    (env : environ) (controllerUUID : string)
    (instances : list environInstance) (ans : error) :
  h _ (prefixedInstances "juju-") w = (Ok instances, w1) ->
  collect JujuModel JujuController env controllerUUID instances <> [] ->
  h _ (RemoveInstances "juju-"
         (collect JujuModel JujuController env controllerUUID instances)) w1
  = (ans, w2) ->
  run h (destroyHostedModelResources JujuModel JujuController env controllerUUID) w =
  (match ans with
   | Some e => Some (Annotate e "removing hosted model instances")
   | None => None
   end, w2,
   [Event (prefixedInstances "juju-") (Ok instances);
    Event (RemoveInstances "juju-"
             (collect JujuModel JujuController env controllerUUID instances)) ans]).
Proof.
  intros Hh Hc Hr. unfold destroyHostedModelResources, call; simpl. rewrite Hh.
  simpl.
  destruct (collect JujuModel JujuController env controllerUUID instances)
    as [|n names] eqn:Hn; [contradiction Hc; reflexivity |].
  simpl. rewrite Hr. destruct ans; reflexivity.
Qed.

(** What a run of the sweep hands to RemoveInstances. *)
Lemma sweep_removed {W : Type} (h : handler W) (w : W)
    (env : environ) (controllerUUID : string) :
  removed (trace (run h (destroyHostedModelResources JujuModel JujuController
                           env controllerUUID) w)) =
  match (h _ (prefixedInstances "juju-") w).1 with
  | Err _ => []
  | Ok instances =>
      match collect JujuModel JujuController env controllerUUID instances with
      | [] => []
      | names => [("juju-", names)]
      end
  end.
Proof.
  destruct (h _ (prefixedInstances "juju-") w) as [[instances|e] w1] eqn:Hh;
    cbn [fst].
  2:{ erewrite sweep_listing_fails by eassumption. reflexivity. }
  destruct (collect JujuModel JujuController env controllerUUID instances)
    as [|n names] eqn:Hn.
  - erewrite sweep_nothing_hosted by eassumption. reflexivity.
  - destruct (h _ (RemoveInstances "juju-" (n :: names)) w1) as [ans w2] eqn:Hr.
    rewrite (sweep_removes_batch h w w1 w2 env controllerUUID instances ans Hh);
      rewrite Hn; [reflexivity | discriminate | exact Hr].
Qed.

Lemma sweep_ops {W : Type} (h : handler W) (w : W)
    (env : environ) (controllerUUID : string) :
  Forall (fun e => on_event sweep_op e = true)
    (trace (run h (destroyHostedModelResources JujuModel JujuController
                     env controllerUUID) w)) /\
  length (removed (trace (run h (destroyHostedModelResources JujuModel
                                   JujuController env controllerUUID) w))) <= 1.
Proof.
  split.
  - destruct (h _ (prefixedInstances "juju-") w) as [[instances|e] w1] eqn:Hh.
    2:{ erewrite sweep_listing_fails by eassumption. repeat constructor. }
    destruct (collect JujuModel JujuController env controllerUUID instances)
      as [|n names] eqn:Hn.
    + erewrite sweep_nothing_hosted by eassumption. repeat constructor.
    + destruct (h _ (RemoveInstances "juju-" (n :: names)) w1) as [ans w2] eqn:Hr.
      rewrite (sweep_removes_batch h w w1 w2 env controllerUUID instances ans Hh);
        rewrite Hn; [repeat constructor | discriminate | exact Hr].
  - rewrite sweep_removed.
    destruct ((h _ (prefixedInstances "juju-") w).1) as [instances|e]; simpl;
      [| lia].
    destruct (collect JujuModel JujuController env controllerUUID instances);
      simpl; lia.
Qed.

(** DestroyController as the sequence of its three steps. *)
Lemma DestroyController_steps {W : Type} (h : handler W) (w : W)
    (env : environ) (controllerUUID : string) :
  let d := run h (Destroy env) w in
  let s := run h (destroyHostedModelResources JujuModel JujuController
                    env controllerUUID) (world_after d) in
  let c := run h (removeCertificate Fingerprint env) (world_after s) in
  run h (DestroyController Fingerprint JujuModel JujuController env controllerUUID) w =
  match returned d with
  | Some e => (Some (Trace e), world_after d, trace d)
  | None =>
      match returned s with
      | Some e => (Some (Trace e), world_after s, trace d ++ trace s)
      | None =>
          if local env
          then (traced (returned c), world_after c, trace d ++ trace s ++ trace c)
          else (None, world_after s, trace d ++ trace s)
      end
  end.
Proof.
  intros d s c. unfold DestroyController. rewrite run_bind. fold d.
  destruct (returned d) as [e|]; cbv beta iota.
  { simpl. rewrite app_nil_r. reflexivity. }
  rewrite run_bind. fold s.
  destruct (returned s) as [e|]; cbv beta iota.
  { simpl. rewrite app_nil_r. reflexivity. }
  destruct (local env).
  - rewrite run_bind. fold c.
    destruct (returned c) as [e|]; simpl; rewrite app_nil_r; reflexivity.
  - simpl. rewrite app_nil_r. reflexivity.
Qed.

End Sweep.

Lemma index_model_tag (kM kC a b : string) :
  index {[ kM := a; kC := b ]} kM = a.
Proof. unfold index. rewrite lookup_insert_eq. reflexivity. Qed.

Lemma index_controller_tag (kM kC a b : string) :
  kM <> kC -> index {[ kM := a; kC := b ]} kC = b.
Proof.
  intros Hne. unfold index.
  rewrite lookup_insert_ne by exact Hne.
  rewrite lookup_singleton_eq. reflexivity.
Qed.

Lemma collect_scenario (kM kC : string) (env : environ) :
  kM <> kC ->
  uuid env = "abc-123" ->
  collect kM kC env "ctrl-1" (sample.instances kM kC) = ["juju-1"].
Proof.
  intros Hne Hu. unfold collect, sample.instances. simpl.
  rewrite !index_model_tag, !index_controller_tag by exact Hne.
  rewrite Hu. reflexivity.
Qed.

(** C1.  The sweep collects exactly the hosted instances of the controller.
    For the list that the prefix query returns, the loop of
    destroyHostedModelResources yields, in listing order, the identifiers of
    exactly those instances whose controller tag equals controllerUUID and
    whose model tag differs from the UUID of the environ; that list, when not
    empty, is the single batch handed to RemoveInstances with the prefix
    "juju-", within the sweep and within DestroyController (whose other steps
    hand nothing to RemoveInstances).  An instance tagged with the environ's
    own model is never in the batch, nor is an instance of another
    controller.  For the three instances of the scenario and the environ
    abc-123, DestroyController for ctrl-1 removes exactly juju-1. *)
Theorem sweep_collects_hosted_instances :
  forall (JujuModel JujuController : string)
         (W : Type) (h : handler W) (w : W),
    let tag (k : string) (inst : environInstance) :=
      index (inst_Metadata (inst_raw inst)) k in
    (forall env controllerUUID instances,
        collect JujuModel JujuController env controllerUUID instances =
        map Id (List.filter (hosted_by JujuModel JujuController env controllerUUID)
                  instances)) /\
    (forall env controllerUUID inst,
        hosted_by JujuModel JujuController env controllerUUID inst = true <->
        tag JujuController inst = controllerUUID /\
        tag JujuModel inst <> uuid env) /\
    (forall env controllerUUID instances w1,
        h _ (prefixedInstances "juju-") w = (Ok instances, w1) ->
        let batch :=
          List.filter (hosted_by JujuModel JujuController env controllerUUID)
            instances in
        removed (trace (run h (destroyHostedModelResources JujuModel
                                 JujuController env controllerUUID) w)) =
        match batch with [] => [] | _ => [("juju-", map Id batch)] end /\
        (forall inst, In inst batch <->
                      In inst instances /\
                      tag JujuController inst = controllerUUID /\
                      tag JujuModel inst <> uuid env) /\
        (forall inst, tag JujuModel inst = uuid env -> ~ In inst batch) /\
        (forall inst, tag JujuController inst <> controllerUUID -> ~ In inst batch)) /\
    (forall (Fingerprint : Cert -> result string) env controllerUUID,
        let d := run h (Destroy env) w in
        removed (trace (run h (DestroyController Fingerprint JujuModel
                                 JujuController env controllerUUID) w)) =
        match returned d with
        | Some _ => []
        | None =>
            removed (trace (run h (destroyHostedModelResources JujuModel
                                     JujuController env controllerUUID)
                              (world_after d)))
        end) /\
    (forall (Fingerprint : Cert -> result string) env w2,
        JujuModel <> JujuController ->
        uuid env = "abc-123" ->
        returned (run h (Destroy env) w) = None ->
        h _ (prefixedInstances "juju-") (world_after (run h (Destroy env) w)) =
          (Ok (sample.instances JujuModel JujuController), w2) ->
        removed (trace (run h (DestroyController Fingerprint JujuModel
                                 JujuController env "ctrl-1") w)) =
        [("juju-", ["juju-1"])]).
Proof.
  intros kM kC W h w tag.
  assert (Hdc : forall (F : Cert -> result string) env ctrl,
             removed (trace (run h (DestroyController F kM kC env ctrl) w)) =
             match returned (run h (Destroy env) w) with
             | Some _ => []
             | None =>
                 removed (trace (run h (destroyHostedModelResources kM kC env ctrl)
                                   (world_after (run h (Destroy env) w))))
             end).
  { intros F env ctrl.
    pose proof (DestroyController_steps F kM kC h w env ctrl) as Hsteps.
    cbv zeta in Hsteps. rewrite Hsteps.
    pose proof (Destroy_removes_nothing h w env) as Hd.
    destruct (returned (run h (Destroy env) w)) as [e|].
    { rewrite trace_of. exact Hd. }
    set (s := run h (destroyHostedModelResources kM kC env ctrl)
                (world_after (run h (Destroy env) w))).
    assert (Hc : removed (trace (run h (removeCertificate F env) (world_after s))) = []).
    { pose proof (removeCertificate_ops F h (world_after s) env) as Hops.
      induction Hops as [|[T o a] tr Ho _ IH]; [reflexivity |].
      simpl. destruct o; try discriminate. exact IH. }
    destruct (returned s); [| destruct (local env)];
      rewrite trace_of, ?removed_app; fold s; rewrite Hd, ?Hc, ?app_nil_r;
      reflexivity. }
  split; [intros; apply collect_filter |].
  split; [intros; apply hosted_by_spec |].
  split; [| split; [exact Hdc |]].
  - intros env ctrl instances w1 Hh batch.
    split; [| split; [| split]].
    + rewrite sweep_removed, Hh. cbn [fst].
      rewrite collect_filter. fold batch.
      destruct batch; reflexivity.
    + intros inst. subst batch. rewrite filter_In, hosted_by_spec. reflexivity.
    + intros inst Heq Hin. subst batch.
      apply filter_In in Hin as [_ Hin].
      apply hosted_by_spec in Hin as [_ Hin]. exact (Hin Heq).
    + intros inst Hne Hin. subst batch.
      apply filter_In in Hin as [_ Hin].
      apply hosted_by_spec in Hin as [Hin _]. exact (Hne Hin).
  - intros F env w2 Hne Hu Hd Hh.
    rewrite Hdc, Hd, sweep_removed, Hh. cbn [fst].
    rewrite collect_scenario by assumption. reflexivity.
Qed.

Lemma sweep_collects_hosted_instances_witness :
  removed (trace (run (sample.canned
                        (sample.instances sample.JujuModel sample.JujuController))
                    (DestroyController sample.Fingerprint sample.JujuModel
                       sample.JujuController (sample.env true) "ctrl-1") tt)) =
  [("juju-", ["juju-1"])].
Proof.
  apply (proj2 (proj2 (proj2 (proj2
           (sweep_collects_hosted_instances sample.JujuModel
              sample.JujuController unit
              (sample.canned
                 (sample.instances sample.JujuModel sample.JujuController))
              tt)))) sample.Fingerprint (sample.env true) tt);
    [discriminate | reflexivity | reflexivity | reflexivity].
Defined.

(** ** DestroyController *)

Lemma Destroy_success_trace {W : Type} (h : handler W) (w : W) (env : environ) :
  returned (run h (Destroy env) w) = None ->
  exists rules,
    trace (run h (Destroy env) w) =
    Event IngressRules (Ok rules)
    :: (match rules with
        | [] => []
        | _ => [Event (ClosePorts rules) None]
        end ++ [Event DestroyEnv None]).
Proof.
  destruct (Destroy_runs h w env) as [e w1 Hh | w1 d w2 Hh Hd
                                     | rules w1 e w2 Hne Hh Hc
                                     | rules w1 w2 d w3 Hne Hh Hc Hd];
    rewrite returned_of, trace_of; intros Hret; try discriminate Hret.
  - destruct d; [discriminate Hret |]. exists []. reflexivity.
  - destruct d; [discriminate Hret |]. exists rules.
    destruct rules as [|rule rules]; [contradiction Hne; reflexivity |].
    reflexivity.
Qed.

Lemma sweep_success_trace (kM kC : string) {W : Type} (h : handler W) (w : W)
    (env : environ) (ctrl : string) :
  returned (run h (destroyHostedModelResources kM kC env ctrl) w) = None ->
  exists instances,
    trace (run h (destroyHostedModelResources kM kC env ctrl) w) =
    Event (prefixedInstances "juju-") (Ok instances)
    :: match map Id (List.filter (hosted_by kM kC env ctrl) instances) with
       | [] => []
       | names => [Event (RemoveInstances "juju-" names) None]
       end.
Proof.
  destruct (h _ (prefixedInstances "juju-") w) as [[instances|e] w1] eqn:Hh.
  2:{ rewrite (sweep_listing_fails kM kC h w w1 env ctrl e Hh), returned_of.
      discriminate. }
  intros Hret. exists instances. rewrite <- collect_filter.
  destruct (collect kM kC env ctrl instances) as [|n names] eqn:Hn.
  { rewrite (sweep_nothing_hosted kM kC h w w1 env ctrl instances Hh Hn).
    reflexivity. }
  destruct (h _ (RemoveInstances "juju-" (n :: names)) w1) as [ans w2] eqn:Hr.
  revert Hret.
  rewrite (sweep_removes_batch kM kC h w w1 w2 env ctrl instances ans Hh);
    rewrite Hn; [| discriminate | exact Hr].
  rewrite returned_of, trace_of.
  destruct ans; [discriminate | reflexivity].
Qed.

(** C8.  DestroyController runs Destroy, then the sweep, then, for a local
    hypervisor only, the certificate removal.  Destroy is the run that
    enumerates the rules, closes them when there are any, and calls the
    generic destroy.  The sweep, from the world Destroy left, lists the
    instances with the prefix "juju-", and hands the identifiers of those
    tagged with the target controller and not with the environ's own model to
    one RemoveInstances call, or makes no such call when there are none.  The
    certificate removal, from the world the sweep left, makes the one
    RemoveCertByFingerprint call for the fingerprint of the certificate of the
    raw remote (none when there is no certificate, or no fingerprint).  The
    first step that returns an error ends the run: its error is returned,
    traced, the world is the one that step left, and no call of a later step
    is made.  A run that returns nil made, in this order, the calls of a
    successful Destroy, the listing with its batch, and, when local, the
    removal, which answered nil or not-found. *)
Theorem DestroyController_ordered_fail_fast :
  forall (Fingerprint : Cert -> result string) (JujuModel JujuController : string)
         (W : Type) (h : handler W) (w : W)
         (env : environ) (controllerUUID : string),
    let r := run h (DestroyController Fingerprint JujuModel JujuController
                      env controllerUUID) w in
    let d := run h (Destroy env) w in
    let s := run h (destroyHostedModelResources JujuModel JujuController
                      env controllerUUID) (world_after d) in
    let c := run h (removeCertificate Fingerprint env) (world_after s) in
    let hosted instances :=
      map Id (List.filter (hosted_by JujuModel JujuController env controllerUUID)
                instances) in
    let closing (rules : list IngressRule) :=
      match rules with
      | [] => []
      | _ => [Event (ClosePorts rules) None]
      end in
    let batch instances :=
      match hosted instances with
      | [] => []
      | names => [Event (RemoveInstances "juju-" names) None]
      end in
    (* the three steps *)
    Destroy_run h w d /\
    (forall e w1,
        h _ (prefixedInstances "juju-") (world_after d) = (Err e, w1) ->
        s = (Some (Annotate e "listing instances"), w1,
             [Event (prefixedInstances "juju-") (Err e)])) /\
    (forall instances w1,
        h _ (prefixedInstances "juju-") (world_after d) = (Ok instances, w1) ->
        hosted instances = [] ->
        s = (None, w1, [Event (prefixedInstances "juju-") (Ok instances)])) /\
    (forall instances w1 ans w2,
        h _ (prefixedInstances "juju-") (world_after d) = (Ok instances, w1) ->
        hosted instances <> [] ->
        h _ (RemoveInstances "juju-" (hosted instances)) w1 = (ans, w2) ->
        s = (match ans with
             | Some e => Some (Annotate e "removing hosted model instances")
             | None => None
             end, w2,
             [Event (prefixedInstances "juju-") (Ok instances);
              Event (RemoveInstances "juju-" (hosted instances)) ans])) /\
    (remote_Cert (remote (raw env)) = None -> c = (None, world_after s, [])) /\
    (forall cert e,
        remote_Cert (remote (raw env)) = Some cert ->
        Fingerprint cert = Err e ->
        c = (Some (Annotate e "generating certificate fingerprint"),
             world_after s, [])) /\
    (forall cert fp ans w1,
        remote_Cert (remote (raw env)) = Some cert ->
        Fingerprint cert = Ok fp ->
        h _ (RemoveCertByFingerprint fp) (world_after s) = (ans, w1) ->
        c = (match ans with
             | Some e => if IsNotFound ans then None
                         else Some (Annotate e "removing certificate")
             | None => None
             end, w1, [Event (RemoveCertByFingerprint fp) ans])) /\
    (* the kinds of calls of each step *)
    Forall (fun e => on_event destroy_op e = true) (trace d) /\
    Forall (fun e => on_event sweep_op e = true) (trace s) /\
    length (removed (trace s)) <= 1 /\
    Forall (fun e => on_event removal_op e = true) (trace c) /\
    (* the order, and the first failure *)
    (forall e, returned d = Some e ->
               r = (Some (Trace e), world_after d, trace d)) /\
    (forall e, returned d = None -> returned s = Some e ->
               r = (Some (Trace e), world_after s, trace d ++ trace s)) /\
    (returned d = None -> returned s = None -> local env = false ->
     r = (None, world_after s, trace d ++ trace s)) /\
    (returned d = None -> returned s = None -> local env = true ->
     r = (traced (returned c), world_after c, trace d ++ trace s ++ trace c)) /\
    (* the calls of a run that returns nil *)
    (returned r = None -> local env = false ->
     exists rules instances,
       trace r =
       Event IngressRules (Ok rules)
       :: (closing rules ++
           [Event DestroyEnv None;
            Event (prefixedInstances "juju-") (Ok instances)] ++
           batch instances)) /\
    (returned r = None -> local env = true ->
     forall cert fp,
       remote_Cert (remote (raw env)) = Some cert ->
       Fingerprint cert = Ok fp ->
       exists rules instances ans,
         trace r =
         Event IngressRules (Ok rules)
         :: (closing rules ++
             [Event DestroyEnv None;
              Event (prefixedInstances "juju-") (Ok instances)] ++
             batch instances ++
             [Event (RemoveCertByFingerprint fp) ans]) /\
         (ans = None \/ IsNotFound ans = true)).
Proof.
  intros F kM kC W h w env ctrl r d s c hosted closing batch.
  pose proof (DestroyController_steps F kM kC h w env ctrl) as Hsteps.
  cbv zeta in Hsteps. fold d s c r in Hsteps.
  split; [apply Destroy_runs |].
  split; [intros e w1 Hh; apply sweep_listing_fails; exact Hh |].
  split.
  { intros instances w1 Hh Hn. apply sweep_nothing_hosted; [exact Hh |].
    rewrite collect_filter. exact Hn. }
  split.
  { intros instances w1 ans w2 Hh Hn Hr. subst s hosted. cbv beta in Hn, Hr |- *.
    rewrite <- (collect_filter kM kC env ctrl instances) in Hn, Hr |- *.
    exact (sweep_removes_batch kM kC h (world_after d) w1 w2 env ctrl instances
             ans Hh Hn Hr). }
  split; [intros Hc; apply removeCertificate_no_cert; exact Hc |].
  split; [intros cert e Hc Hf; eapply removeCertificate_no_fingerprint;
          eassumption |].
  split; [intros cert fp ans w1 Hc Hf Hh; eapply removeCertificate_call;
          eassumption |].
  split; [apply Destroy_ops |].
  split; [apply sweep_ops |].
  split; [apply sweep_ops |].
  split; [apply removeCertificate_ops |].
  split; [intros e Hd; rewrite Hsteps, Hd; reflexivity |].
  split; [intros e Hd Hs; rewrite Hsteps, Hd, Hs; reflexivity |].
  split; [intros Hd Hs Hl; rewrite Hsteps, Hd, Hs, Hl; reflexivity |].
  split; [intros Hd Hs Hl; rewrite Hsteps, Hd, Hs, Hl; reflexivity |].
  assert (Hparts : returned r = None ->
                   exists rules instances,
                     returned d = None /\ returned s = None /\
                     trace d = Event IngressRules (Ok rules)
                               :: (closing rules ++ [Event DestroyEnv None]) /\
                     trace s = Event (prefixedInstances "juju-") (Ok instances)
                               :: batch instances).
  { intros Hret. rewrite Hsteps in Hret.
    destruct (returned d) as [e|] eqn:Hd; [discriminate Hret |].
    destruct (returned s) as [e|] eqn:Hs; [discriminate Hret |].
    destruct (Destroy_success_trace h w env Hd) as [rules Htd].
    destruct (sweep_success_trace kM kC h (world_after d) env ctrl Hs)
      as [instances Hts].
    exists rules, instances. repeat split; assumption. }
  split.
  - intros Hret Hl.
    destruct (Hparts Hret) as (rules & instances & Hd & Hs & Htd & Hts).
    exists rules, instances.
    rewrite Hsteps, Hd, Hs, Hl, trace_of, Htd, Hts.
    subst closing. cbv beta.
    destruct rules; simpl; reflexivity.
  - intros Hret Hl cert fp Hc Hf.
    destruct (Hparts Hret) as (rules & instances & Hd & Hs & Htd & Hts).
    destruct (h _ (RemoveCertByFingerprint fp) (world_after s)) as [ans w3]
      eqn:Hrm.
    exists rules, instances, ans.
    pose proof (removeCertificate_call F h (world_after s) w3 env cert fp ans
                  Hc Hf Hrm) as Hrun.
    fold c in Hrun.
    rewrite Hsteps, Hd, Hs, Hl in Hret. rewrite Hsteps, Hd, Hs, Hl.
    rewrite returned_of in Hret. rewrite trace_of, Htd, Hts.
    rewrite Hrun in Hret |- *. rewrite returned_of in Hret. rewrite trace_of.
    split.
    + subst closing batch. cbv beta.
      destruct rules; destruct (hosted instances); simpl; reflexivity.
    + destruct ans as [e|]; [| left; reflexivity].
      right. destruct (IsNotFound (Some e)); [reflexivity | discriminate Hret].
Qed.

Lemma DestroyController_ordered_fail_fast_witness :
  run sample.server
    (DestroyController sample.Fingerprint sample.JujuModel sample.JujuController
       (sample.env true) "ctrl-1") scenario_server =
  (None,
   mkHypervisor [] ∅
     [mkInstance "juju-2"
        {[ sample.JujuModel := "xyz-999"; sample.JujuController := "ctrl-2" ]}]
     [] [],
   [Event IngressRules (Ok [sample.rule]);
    Event (ClosePorts [sample.rule]) None;
    Event DestroyEnv None;
    Event (prefixedInstances "juju-")
      (Ok [sample.tagged "juju-1" "xyz-999" "ctrl-1";
           sample.tagged "juju-2" "xyz-999" "ctrl-2"]);
    Event (RemoveInstances "juju-" ["juju-1"]) None;
    Event (RemoveCertByFingerprint "sha256:PEM") None]) /\
  run sample.server
    (DestroyController sample.Fingerprint sample.JujuModel sample.JujuController
       (sample.env true) "ctrl-1")
    (mkHypervisor [] ∅ [] [] [None; None; Some (New "connection lost")]) =
  (Some (Trace (Annotate (New "connection lost") "listing instances")),
   sample.empty,
   [Event IngressRules (Ok []); Event DestroyEnv None;
    Event (prefixedInstances "juju-") (Err (New "connection lost"))]).
Proof.
  split.
  - destruct (DestroyController_ordered_fail_fast sample.Fingerprint
                sample.JujuModel sample.JujuController Hypervisor
                sample.server scenario_server (sample.env true) "ctrl-1")
      as (_ & _ & _ & _ & _ & _ & _ & _ & _ & _ & _ & _ & _ & _ & Hlocal & _).
    eapply eq_trans; [apply Hlocal; reflexivity | reflexivity].
  - destruct (DestroyController_ordered_fail_fast sample.Fingerprint
                sample.JujuModel sample.JujuController Hypervisor sample.server
                (mkHypervisor [] ∅ [] [] [None; None; Some (New "connection lost")])
                (sample.env true) "ctrl-1")
      as (_ & _ & _ & _ & _ & _ & _ & _ & _ & _ & _ & _ & Hsweep & _).
    apply (Hsweep (Annotate (New "connection lost") "listing instances"));
      reflexivity.
Defined.

(** ** Bootstrap *)

Section Trust.

Variable Fingerprint : Cert -> result string.

Lemma Bootstrap_remote {W : Type} (h : handler W) (w : W) (env : environ)
    (ctx : BootstrapContext) (params : BootstrapParams) :
  local env = false ->
  run h (Bootstrap Fingerprint env ctx params) w =
  ((h _ (BootstrapEnv ctx params) w).1, (h _ (BootstrapEnv ctx params) w).2,
   [Event (BootstrapEnv ctx params) (h _ (BootstrapEnv ctx params) w).1]).
Proof.
  intros Hl. unfold Bootstrap. rewrite Hl. apply run_call.
Qed.

Lemma Bootstrap_no_cert {W : Type} (h : handler W) (w : W) (env : environ)
    (ctx : BootstrapContext) (params : BootstrapParams) :
  local env = true ->
  getCerts (cloud env) = None ->
  run h (Bootstrap Fingerprint env ctx params) w =
  (Err (New "cannot bootstrap without client certificate"), w, []).
Proof. intros Hl Hg. unfold Bootstrap. rewrite Hl, Hg. reflexivity. Qed.

Lemma Bootstrap_no_fingerprint {W : Type} (h : handler W) (w : W) (env : environ)
    (ctx : BootstrapContext) (params : BootstrapParams)
    (c : Cert) (srv : string) (e : errval) :
  local env = true ->
  getCerts (cloud env) = Some (c, srv) ->
  Fingerprint c = Err e ->
  run h (Bootstrap Fingerprint env ctx params) w = (Err (Trace e), w, []).
Proof. intros Hl Hg Hf. unfold Bootstrap. rewrite Hl, Hg, Hf. reflexivity. Qed.

Lemma Bootstrap_lookup_fails {W : Type} (h : handler W) (w w1 : W) (env : environ)
    (ctx : BootstrapContext) (params : BootstrapParams)
    (c : Cert) (srv fp : string) (e : errval) :
  local env = true ->
  getCerts (cloud env) = Some (c, srv) ->
  Fingerprint c = Ok fp ->
  h _ (CertByFingerprint fp) w = (Err e, w1) ->
  IsNotFound (Some e) = false ->
  run h (Bootstrap Fingerprint env ctx params) w =
  (Err (Annotate e "querying certificates"), w1,
   [Event (CertByFingerprint fp) (Err e)]).
Proof.
  intros Hl Hg Hf Hh Hnf. unfold Bootstrap. rewrite Hl, Hg, Hf.
  unfold call at 2; simpl. rewrite Hh. simpl err_of. rewrite Hnf. reflexivity.
Qed.

Lemma Bootstrap_already_trusted {W : Type} (h : handler W) (w w1 : W) (env : environ)
    (ctx : BootstrapContext) (params : BootstrapParams)
    (c : Cert) (srv fp : string) (ci : CertInfo) :
  local env = true ->
  getCerts (cloud env) = Some (c, srv) ->
  Fingerprint c = Ok fp ->
  h _ (CertByFingerprint fp) w = (Ok ci, w1) ->
  run h (Bootstrap Fingerprint env ctx params) w =
  ((h _ (BootstrapEnv ctx params) w1).1, (h _ (BootstrapEnv ctx params) w1).2,
   [Event (CertByFingerprint fp) (Ok ci);
    Event (BootstrapEnv ctx params) (h _ (BootstrapEnv ctx params) w1).1]).
Proof.
  intros Hl Hg Hf Hh. unfold Bootstrap. rewrite Hl, Hg, Hf.
  unfold call; simpl. rewrite Hh. simpl.
  destruct (h _ (BootstrapEnv ctx params) w1); reflexivity.
Qed.

Lemma Bootstrap_registration_fails {W : Type} (h : handler W) (w w1 w2 : W)
    (env : environ) (ctx : BootstrapContext) (params : BootstrapParams)
    (c : Cert) (srv fp : string) (e e' : errval) :
  local env = true ->
  getCerts (cloud env) = Some (c, srv) ->
  Fingerprint c = Ok fp ->
  h _ (CertByFingerprint fp) w = (Err e, w1) ->
  IsNotFound (Some e) = true ->
  h _ (AddCert c) w1 = (Some e', w2) ->
  run h (Bootstrap Fingerprint env ctx params) w =
  (Err (Annotatef e' "adding certificate %q" [cert_Name c]), w2,
   [Event (CertByFingerprint fp) (Err e); Event (AddCert c) (Some e')]).
Proof.
  intros Hl Hg Hf Hh Hnf Ha. unfold Bootstrap. rewrite Hl, Hg, Hf.
  unfold call; simpl. rewrite Hh. simpl err_of. rewrite Hnf. simpl.
  rewrite Ha. reflexivity.
Qed.

Lemma Bootstrap_registers {W : Type} (h : handler W) (w w1 w2 : W)
    (env : environ) (ctx : BootstrapContext) (params : BootstrapParams)
    (c : Cert) (srv fp : string) (e : errval) :
  local env = true ->
  getCerts (cloud env) = Some (c, srv) ->
  Fingerprint c = Ok fp ->
  h _ (CertByFingerprint fp) w = (Err e, w1) ->
  IsNotFound (Some e) = true ->
  h _ (AddCert c) w1 = (None, w2) ->
  run h (Bootstrap Fingerprint env ctx params) w =
  ((h _ (BootstrapEnv ctx params) w2).1, (h _ (BootstrapEnv ctx params) w2).2,
   [Event (CertByFingerprint fp) (Err e); Event (AddCert c) None;
    Event (BootstrapEnv ctx params) (h _ (BootstrapEnv ctx params) w2).1]).
Proof.
  intros Hl Hg Hf Hh Hnf Ha. unfold Bootstrap. rewrite Hl, Hg, Hf.
  unfold call; simpl. rewrite Hh. simpl err_of. rewrite Hnf. simpl.
  rewrite Ha. simpl.
  destruct (h _ (BootstrapEnv ctx params) w2); reflexivity.
Qed.

End Trust.

Lemma destroy_op_not_cert (tr : list event) :
  Forall (fun e => on_event destroy_op e = true) tr ->
  Forall (fun e => on_event cert_op e = false) tr.
Proof.
  intros Hops. eapply Forall_impl; [exact Hops |].
  intros [T o a]; simpl. destruct o; (reflexivity || discriminate).
Qed.

Lemma sweep_op_not_cert (tr : list event) :
  Forall (fun e => on_event sweep_op e = true) tr ->
  Forall (fun e => on_event cert_op e = false) tr.
Proof.
  intros Hops. eapply Forall_impl; [exact Hops |].
  intros [T o a]; simpl. destruct o; (reflexivity || discriminate).
Qed.

(** C5.  A remote hypervisor sees no certificate operation.  When the environ
    is not local, Bootstrap makes exactly one call, the generic bootstrap, and
    returns its answer: no fingerprint lookup and no registration; and no call
    of DestroyController is a certificate lookup, registration or removal. *)
Theorem remote_makes_no_certificate_call :
  forall (Fingerprint : Cert -> result string) (JujuModel JujuController : string)
         (W : Type) (h : handler W) (w : W) (env : environ),
    local env = false ->
    (forall ctx params,
        let r := run h (Bootstrap Fingerprint env ctx params) w in
        trace r = [Event (BootstrapEnv ctx params) (returned r)] /\
        h _ (BootstrapEnv ctx params) w = (returned r, world_after r) /\
        Forall (fun e => on_event cert_op e = false) (trace r)) /\
    (forall controllerUUID,
        Forall (fun e => on_event cert_op e = false)
          (trace (run h (DestroyController Fingerprint JujuModel JujuController
                           env controllerUUID) w))).
Proof.
  intros F kM kC W h w env Hl. split.
  - intros ctx params r. subst r.
    rewrite (Bootstrap_remote F h w env ctx params Hl).
    rewrite trace_of, returned_of, world_after_of.
    split; [reflexivity |]. split; [| repeat constructor].
    destruct (h _ (BootstrapEnv ctx params) w); reflexivity.
  - intros ctrl.
    pose proof (DestroyController_steps F kM kC h w env ctrl) as Hsteps.
    cbv zeta in Hsteps. rewrite Hsteps, Hl.
    pose proof (destroy_op_not_cert _ (Destroy_ops h w env)) as Hd.
    pose proof (sweep_op_not_cert _
                  (proj1 (sweep_ops kM kC h (world_after (run h (Destroy env) w))
                            env ctrl))) as Hs.
    destruct (returned (run h (Destroy env) w)); [rewrite trace_of; exact Hd |].
    destruct (returned (run h (destroyHostedModelResources kM kC env ctrl)
                          (world_after (run h (Destroy env) w))));
      rewrite trace_of; apply Forall_app; split; assumption.
Qed.

Lemma remote_makes_no_certificate_call_witness :
  trace (run sample.server
           (Bootstrap sample.Fingerprint (sample.env false) sample.ctx sample.params)
           sample.empty) =
  [Event (BootstrapEnv sample.ctx sample.params)
     (Ok {| Arch := "amd64"; Series := "xenial" |})] /\
  Forall (fun e => on_event cert_op e = false)
    (trace (run sample.server
              (DestroyController sample.Fingerprint sample.JujuModel
                 sample.JujuController (sample.env false) "ctrl-1")
              sample.empty)).
Proof.
  destruct (remote_makes_no_certificate_call sample.Fingerprint sample.JujuModel
              sample.JujuController Hypervisor sample.server sample.empty
              (sample.env false) eq_refl) as [Hb Hd].
  split.
  - exact (proj1 (Hb sample.ctx sample.params)).
  - exact (Hd "ctrl-1").
Defined.

Lemma pair_eta {A B : Type} (p : A * B) : p = (p.1, p.2).
Proof. destruct p; reflexivity. Qed.

(** C2, as the code has it.  On a local hypervisor the trust step fails,
    that is Bootstrap returns without reaching the generic strategy, exactly
    when no client certificate is configured, or the fingerprint of the
    certificate cannot be computed, or the lookup fails with an error that is
    not a not-found error, or the lookup reports not-found and the
    registration call returns an error, whatever the error: an
    already-exists error is returned like any other.  A failed trust step
    returns an error; otherwise the run ends with the call of the generic
    strategy and returns its answer. *)
Theorem Bootstrap_trust_step_fails_iff :
  forall (Fingerprint : Cert -> result string)
         (W : Type) (h : handler W) (w : W) (env : environ)
         (ctx : BootstrapContext) (params : BootstrapParams),
    local env = true ->
    let r := run h (Bootstrap Fingerprint env ctx params) w in
    (delegated (trace r) = false <->
     getCerts (cloud env) = None \/
     (exists c srv e,
         getCerts (cloud env) = Some (c, srv) /\ Fingerprint c = Err e) \/
     (exists c srv fp e,
         getCerts (cloud env) = Some (c, srv) /\ Fingerprint c = Ok fp /\
         (h _ (CertByFingerprint fp) w).1 = Err e /\
         IsNotFound (Some e) = false) \/
     (exists c srv fp e',
         getCerts (cloud env) = Some (c, srv) /\ Fingerprint c = Ok fp /\
         IsNotFound (err_of (h _ (CertByFingerprint fp) w).1) = true /\
         (h _ (AddCert c) (h _ (CertByFingerprint fp) w).2).1 = Some e')) /\
    (delegated (trace r) = false -> exists e, returned r = Err e) /\
    (delegated (trace r) = true ->
     exists tr w1,
       trace r = tr ++ [Event (BootstrapEnv ctx params) (returned r)] /\
       h _ (BootstrapEnv ctx params) w1 = (returned r, world_after r)) /\
    (forall c srv fp e e' w1 w2,
        getCerts (cloud env) = Some (c, srv) ->
        Fingerprint c = Ok fp ->
        h _ (CertByFingerprint fp) w = (Err e, w1) ->
        IsNotFound (Some e) = true ->
        h _ (AddCert c) w1 = (Some e', w2) ->
        r = (Err (Annotatef e' "adding certificate %q" [cert_Name c]), w2,
             [Event (CertByFingerprint fp) (Err e); Event (AddCert c) (Some e')])).
Proof.
  intros F W h w env ctx params Hl r.
  assert (Hlast : forall c srv fp e e' w1 w2,
             getCerts (cloud env) = Some (c, srv) ->
             F c = Ok fp ->
             h _ (CertByFingerprint fp) w = (Err e, w1) ->
             IsNotFound (Some e) = true ->
             h _ (AddCert c) w1 = (Some e', w2) ->
             r = (Err (Annotatef e' "adding certificate %q" [cert_Name c]), w2,
                  [Event (CertByFingerprint fp) (Err e);
                   Event (AddCert c) (Some e')])).
  { intros. subst r. eapply Bootstrap_registration_fails; eassumption. }
  repeat match goal with |- _ /\ _ => split end; try exact Hlast; clear Hlast;
    subst r.
  - (* the failure condition *)
    destruct (getCerts (cloud env)) as [[c srv]|] eqn:Hg.
    2:{ rewrite (Bootstrap_no_cert F h w env ctx params Hl Hg).
        split; [intros _; left; reflexivity | reflexivity]. }
    destruct (F c) as [fp|e] eqn:Hf.
    2:{ rewrite (Bootstrap_no_fingerprint F h w env ctx params c srv e Hl Hg Hf).
        split; [| reflexivity].
        intros _. right; left. exists c, srv, e. split; [reflexivity | exact Hf]. }
    destruct (h _ (CertByFingerprint fp) w) as [[ci|e] w1] eqn:Hh.
    { rewrite (Bootstrap_already_trusted F h w w1 env ctx params c srv fp ci
                 Hl Hg Hf Hh).
      split; [discriminate |].
      intros [Hn | [(c' & srv' & e' & Hg' & Hf')
                   | [(c' & srv' & fp' & e' & Hg' & Hf' & Hl' & Hn')
                     | (c' & srv' & fp' & e' & Hg' & Hf' & Hn' & Ha')]]];
        try discriminate; injection Hg' as <- <-;
        rewrite Hf in Hf'; try discriminate; injection Hf' as <-;
        rewrite Hh in *; discriminate. }
    destruct (IsNotFound (Some e)) eqn:Hnf.
    2:{ rewrite (Bootstrap_lookup_fails F h w w1 env ctx params c srv fp e
                   Hl Hg Hf Hh Hnf).
        split; [| reflexivity].
        intros _. right; right; left. exists c, srv, fp, e.
        rewrite Hh. repeat split; assumption. }
    destruct (h _ (AddCert c) w1) as [[e'|] w2] eqn:Ha.
    { rewrite (Bootstrap_registration_fails F h w w1 w2 env ctx params c srv fp
                 e e' Hl Hg Hf Hh Hnf Ha).
      split; [| reflexivity].
      intros _. right; right; right. exists c, srv, fp, e'.
      rewrite Hh. cbn [fst snd err_of]. rewrite Ha.
      repeat split; assumption. }
    rewrite (Bootstrap_registers F h w w1 w2 env ctx params c srv fp e
               Hl Hg Hf Hh Hnf Ha).
    split; [discriminate |].
    intros [Hn | [(c' & srv' & e' & Hg' & Hf')
                 | [(c' & srv' & fp' & e' & Hg' & Hf' & Hl' & Hn')
                   | (c' & srv' & fp' & e' & Hg' & Hf' & Hn' & Ha')]]];
      try discriminate; injection Hg' as <- <-;
      rewrite Hf in Hf'; try discriminate; injection Hf' as <-;
      rewrite Hh in *; cbn [fst snd] in *.
    + injection Hl' as <-. rewrite Hnf in Hn'. discriminate.
    + rewrite Ha in Ha'. discriminate.
  - (* a failed step returns an error *)
    destruct (getCerts (cloud env)) as [[c srv]|] eqn:Hg.
    2:{ rewrite (Bootstrap_no_cert F h w env ctx params Hl Hg).
        intros _; eexists; reflexivity. }
    destruct (F c) as [fp|e] eqn:Hf.
    2:{ rewrite (Bootstrap_no_fingerprint F h w env ctx params c srv e Hl Hg Hf).
        intros _; eexists; reflexivity. }
    destruct (h _ (CertByFingerprint fp) w) as [[ci|e] w1] eqn:Hh.
    { rewrite (Bootstrap_already_trusted F h w w1 env ctx params c srv fp ci
                 Hl Hg Hf Hh). discriminate. }
    destruct (IsNotFound (Some e)) eqn:Hnf.
    2:{ rewrite (Bootstrap_lookup_fails F h w w1 env ctx params c srv fp e
                   Hl Hg Hf Hh Hnf). intros _; eexists; reflexivity. }
    destruct (h _ (AddCert c) w1) as [[e'|] w2] eqn:Ha.
    { rewrite (Bootstrap_registration_fails F h w w1 w2 env ctx params c srv fp
                 e e' Hl Hg Hf Hh Hnf Ha). intros _; eexists; reflexivity. }
    rewrite (Bootstrap_registers F h w w1 w2 env ctx params c srv fp e
               Hl Hg Hf Hh Hnf Ha). discriminate.
  - (* otherwise the generic strategy answers *)
    destruct (getCerts (cloud env)) as [[c srv]|] eqn:Hg.
    2:{ rewrite (Bootstrap_no_cert F h w env ctx params Hl Hg). discriminate. }
    destruct (F c) as [fp|e] eqn:Hf.
    2:{ rewrite (Bootstrap_no_fingerprint F h w env ctx params c srv e Hl Hg Hf).
        discriminate. }
    destruct (h _ (CertByFingerprint fp) w) as [[ci|e] w1] eqn:Hh.
    { rewrite (Bootstrap_already_trusted F h w w1 env ctx params c srv fp ci
                 Hl Hg Hf Hh).
      intros _. exists [Event (CertByFingerprint fp) (Ok ci)], w1.
      rewrite trace_of, returned_of, world_after_of.
      split; [reflexivity | apply pair_eta]. }
    destruct (IsNotFound (Some e)) eqn:Hnf.
    2:{ rewrite (Bootstrap_lookup_fails F h w w1 env ctx params c srv fp e
                   Hl Hg Hf Hh Hnf). discriminate. }
    destruct (h _ (AddCert c) w1) as [[e'|] w2] eqn:Ha.
    { rewrite (Bootstrap_registration_fails F h w w1 w2 env ctx params c srv fp
                 e e' Hl Hg Hf Hh Hnf Ha). discriminate. }
    rewrite (Bootstrap_registers F h w w1 w2 env ctx params c srv fp e
               Hl Hg Hf Hh Hnf Ha).
    intros _.
    exists [Event (CertByFingerprint fp) (Err e); Event (AddCert c) None], w2.
    rewrite trace_of, returned_of, world_after_of.
    split; [reflexivity | apply pair_eta].
Qed.

Lemma Bootstrap_trust_step_fails_iff_witness :
  run sample.server
    (Bootstrap sample.Fingerprint (sample.env true) sample.ctx sample.params)
    (with_faults [None; Some (AlreadyExistsf "sha256:PEM")] sample.empty) =
  (Err (Annotatef (AlreadyExistsf "sha256:PEM") "adding certificate %q"
          ["juju-client-certificate"]),
   sample.empty,
   [Event (CertByFingerprint "sha256:PEM") (Err (NotFoundf "sha256:PEM"));
    Event (AddCert sample.cert) (Some (AlreadyExistsf "sha256:PEM"))]).
Proof.
  apply (proj2 (proj2 (proj2
           (Bootstrap_trust_step_fails_iff sample.Fingerprint Hypervisor
              sample.server
              (with_faults [None; Some (AlreadyExistsf "sha256:PEM")] sample.empty)
              (sample.env true) sample.ctx sample.params eq_refl)))
           sample.cert "" "sha256:PEM" (NotFoundf "sha256:PEM")
           (AlreadyExistsf "sha256:PEM")
           (with_faults [Some (AlreadyExistsf "sha256:PEM")] sample.empty)
           sample.empty);
    reflexivity.
Defined.

(** The trust step as the spec words it does not hold of the code.  With a
    certificate configured and a lookup that reports not-found, a registration
    call that answers already-exists makes Bootstrap return the annotated
    error without reaching the generic strategy, although nothing in the
    failure condition of the spec holds; and a certificate whose fingerprint
    cannot be computed fails the step although it is configured and no call
    failed. *)
Lemma Bootstrap_already_exists_is_fatal :
  let w := with_faults [None; Some (AlreadyExistsf "sha256:PEM")] sample.empty in
  let r := run sample.server
             (Bootstrap sample.Fingerprint (sample.env true) sample.ctx
                sample.params) w in
  let r' := run sample.server
              (Bootstrap sample.Fingerprint sample.blank_env sample.ctx
                 sample.params) sample.empty in
  (local (sample.env true) = true /\
   In (Event (AddCert sample.cert) (Some (AlreadyExistsf "sha256:PEM"))) (trace r) /\
   IsAlreadyExists (Some (AlreadyExistsf "sha256:PEM")) = true /\
   delegated (trace r) = false /\
   returned r = Err (Annotatef (AlreadyExistsf "sha256:PEM")
                       "adding certificate %q" ["juju-client-certificate"]) /\
   ~ trust_failure_in_spec_words sample.Fingerprint sample.server w
       (sample.env true) /\
   ~ (delegated (trace r) = false <->
      trust_failure_in_spec_words sample.Fingerprint sample.server w
        (sample.env true))) /\
  (local sample.blank_env = true /\
   delegated (trace r') = false /\
   returned r' = Err (Trace (New "no PEM block")) /\
   ~ (delegated (trace r') = false <->
      trust_failure_in_spec_words sample.Fingerprint sample.server sample.empty
        sample.blank_env)).
Proof.
  intros w r r'.
  assert (Hno : ~ trust_failure_in_spec_words sample.Fingerprint sample.server w
                  (sample.env true)).
  { intros [Hn | [(c & srv & fp & e & Hg & Hf & Hlk & Hnf)
                 | (c & srv & fp & e' & Hg & Hf & Hnf & Ha & Hae)]].
    - discriminate Hn.
    - injection Hg as <- <-. injection Hf as <-.
      injection Hlk as <-. discriminate Hnf.
    - injection Hg as <- <-. injection Hf as <-.
      injection Ha as <-. discriminate Hae. }
  assert (Hno' : ~ trust_failure_in_spec_words sample.Fingerprint sample.server
                   sample.empty sample.blank_env).
  { intros [Hn | [(c & srv & fp & e & Hg & Hf & _)
                 | (c & srv & fp & e' & Hg & Hf & _)]].
    - discriminate Hn.
    - injection Hg as <- <-. discriminate Hf.
    - injection Hg as <- <-. discriminate Hf. }
  split.
  - split; [reflexivity |].
    split; [right; left; reflexivity |].
    split; [reflexivity |].
    split; [reflexivity |].
    split; [reflexivity |].
    split; [exact Hno |].
    intros [Hiff _]. exact (Hno (Hiff eq_refl)).
  - split; [reflexivity |].
    split; [reflexivity |].
    split; [reflexivity |].
    intros [Hiff _]. exact (Hno' (Hiff eq_refl)).
Qed.

(** ** The trust store of the reference hypervisor *)

Section TrustStore.

Variable Fingerprint : Cert -> result string.
Variable JujuModel : string.
Variable JujuController : string.
Variable self : string.


Lemma trust_with_faults (fs : list error) (s : Hypervisor) :
  trust (with_faults fs s) = trust s.
Proof. reflexivity. Qed.

(** A call that is refused leaves the trust store as it is. *)
Lemma hypervisor_refused {T : Type} (o : Op T) (s : Hypervisor)
    (e : errval) (fs : list error) :
  faults s = Some e :: fs ->
  hypervisor Fingerprint JujuModel JujuController self T o s =
  (refuse o e, with_faults fs s).
Proof. intros Hf. unfold hypervisor. rewrite Hf. reflexivity. Qed.


Lemma serve_bootstrap_trust (ctx : BootstrapContext) (params : BootstrapParams)
    (s : Hypervisor) :
  trust (serve Fingerprint JujuModel JujuController self (BootstrapEnv ctx params) s).2
  = trust s.
Proof. reflexivity. Qed.






End TrustStore.




(** * Further properties of environ.go *)

(** ** Construction stops at the first failing step *)

(** X1.  newEnviron validates the configuration and derives the namespace
    before it connects: when either fails, no call is made on any
    collaborator and the world is untouched; the validation error wins when
    both would fail.  When the connection fails, the calls of the run are the
    calls of newRawProvider alone: the profile is neither checked nor
    created. *)
Theorem newEnviron_fails_before_calling :
  forall (newValidConfig : config.Config -> result environConfig)
         (NewNamespace : string -> result Namespace)
         (W : Type) (h : handler W) (w : W)
         (loc : bool) (spec : CloudSpec) (cfg : config.Config)
         (newRawProvider : CloudSpec -> bool -> Prog (result rawProvider)),
    let r := run h (newEnviron newValidConfig NewNamespace loc spec cfg
                      newRawProvider) w in
    let connected := run h (newRawProvider spec loc) w in
    (forall e, newValidConfig cfg = Err e ->
               r = ((None, Some (Annotate e "invalid config")), w, [])) /\
    (forall ecfg0 e, newValidConfig cfg = Ok ecfg0 ->
                     NewNamespace (cfg_UUID cfg) = Err e ->
                     r = ((None, Some (Trace e)), w, [])) /\
    (forall ecfg0 ns0 e, newValidConfig cfg = Ok ecfg0 ->
                         NewNamespace (cfg_UUID cfg) = Ok ns0 ->
                         returned connected = Err e ->
                         r = ((None, Some (Trace e)), world_after connected,
                              trace connected)).
Proof.
  intros nvc nns W h w loc spec cfg nrp r connected. subst r.
  split; [| split].
  - intros e Hv. unfold newEnviron. rewrite Hv. reflexivity.
  - intros ecfg0 e Hv Hn. unfold newEnviron. rewrite Hv, Hn. reflexivity.
  - intros ecfg0 ns0 e Hv Hn Hr. unfold newEnviron.
    rewrite Hv, Hn, run_bind. fold connected. rewrite Hr. simpl.
    rewrite app_nil_r. reflexivity.
Qed.

Lemma newEnviron_fails_before_calling_witness :
  run sample.server
    (newEnviron sample.newValidConfig sample.NewNamespace true sample.spec
       (mkConfig "controller" "" ∅) sample.connect) sample.empty =
  ((None, Some (Trace (New "invalid model UUID"))), sample.empty, []).
Proof.
  apply (proj1 (proj2 (newEnviron_fails_before_calling sample.newValidConfig
                         sample.NewNamespace Hypervisor sample.server
                         sample.empty true sample.spec
                         (mkConfig "controller" "" ∅) sample.connect))
           {| ec_Config := mkConfig "controller" "" ∅; ec_attrs := ∅ |}
           (New "invalid model UUID")); reflexivity.
Defined.

(** ** A sequence of SetConfig calls *)

Lemma last_valid_from (newValidConfig : config.Config -> result environConfig)
    (cfgs : list config.Config) (acc : option environConfig) :
  fold_left
    (fun acc cfg =>
       match newValidConfig cfg with
       | Ok ecfg0 => Some ecfg0
       | Err _ => acc
       end) cfgs acc =
  match last_valid newValidConfig cfgs with
  | Some ecfg0 => Some ecfg0
  | None => acc
  end.
Proof.
  unfold last_valid. revert acc.
  induction cfgs as [|cfg cfgs IH]; intros acc; simpl; [reflexivity |].
  rewrite IH. rewrite (IH (match newValidConfig cfg with
                           | Ok ecfg0 => Some ecfg0
                           | Err _ => None
                           end)).
  destruct (fold_left _ cfgs None); [reflexivity |].
  destruct (newValidConfig cfg); reflexivity.
Qed.

(** X2.  Whatever configurations SetConfig is called with, in whatever
    order and whether they validate or not, the identity of the environ stays
    the one fixed at construction: name, uuid, cloud, locality, raw provider
    and namespace never change, so Name keeps its answer and the sweep keeps
    testing instances against the construction-time UUID.  The snapshot is
    the validated form of the last configuration that validated, or the
    original snapshot when none did. *)
Theorem SetConfig_sequence_keeps_identity :
  forall (newValidConfig : config.Config -> result environConfig)
         (cfgs : list config.Config) (env : environ),
    let after := SetConfigs newValidConfig cfgs env in
    Name after = Name env /\
    uuid after = uuid env /\
    cloud after = cloud env /\
    local after = local env /\
    raw after = raw env /\
    namespace after = namespace env /\
    ecfg after = default (ecfg env) (last_valid newValidConfig cfgs) /\
    Config after =
      match last_valid newValidConfig cfgs with
      | Some ecfg0 => ec_Config ecfg0
      | None => Config env
      end /\
    (forall kM kC controllerUUID instances,
        collect kM kC after controllerUUID instances =
        collect kM kC env controllerUUID instances).
Proof.
  intros nvc cfgs. unfold SetConfigs.
  induction cfgs as [|cfg cfgs IH]; intros env; cbv zeta.
  - simpl. repeat split.
  - simpl fold_left.
    specialize (IH (SetConfig nvc cfg env).1).
    cbv zeta in IH.
    destruct IH as (Hn & Hu & Hc & Hl & Hr & Hns & He & Hcfg & Hcol).
    assert (Hid : Name (SetConfig nvc cfg env).1 = Name env /\
                  uuid (SetConfig nvc cfg env).1 = uuid env /\
                  cloud (SetConfig nvc cfg env).1 = cloud env /\
                  local (SetConfig nvc cfg env).1 = local env /\
                  raw (SetConfig nvc cfg env).1 = raw env /\
                  namespace (SetConfig nvc cfg env).1 = namespace env).
    { unfold SetConfig. destruct (nvc cfg); repeat split. }
    destruct Hid as (Hn' & Hu' & Hc' & Hl' & Hr' & Hns').
    assert (Hlast : last_valid nvc (cfg :: cfgs) =
                    match last_valid nvc cfgs with
                    | Some ecfg0 => Some ecfg0
                    | None => match nvc cfg with
                              | Ok ecfg0 => Some ecfg0
                              | Err _ => None
                              end
                    end).
    { unfold last_valid at 1. simpl. apply last_valid_from. }
    assert (He' : ecfg (fold_left (fun e c => (SetConfig nvc c e).1) cfgs
                          (SetConfig nvc cfg env).1) =
                  default (ecfg env) (last_valid nvc (cfg :: cfgs))).
    { rewrite He, Hlast.
      destruct (last_valid nvc cfgs); [reflexivity |].
      unfold SetConfig. destruct (nvc cfg); reflexivity. }
    split; [congruence |]. split; [congruence |]. split; [congruence |].
    split; [congruence |]. split; [congruence |]. split; [congruence |].
    split; [exact He' |].
    split.
    + unfold Config. rewrite He'.
      destruct (last_valid nvc (cfg :: cfgs)); reflexivity.
    + intros kM kC ctrl instances. rewrite Hcol.
      unfold collect. rewrite Hu'. reflexivity.
Qed.

Lemma SetConfig_sequence_keeps_identity_witness :
  Name (SetConfigs sample.newValidConfig
          [mkConfig "renamed" "xyz-999" ∅; sample.bad_cfg] (sample.env true))
  = "controller" /\
  Config (SetConfigs sample.newValidConfig
            [mkConfig "renamed" "xyz-999" ∅; sample.bad_cfg] (sample.env true))
  = mkConfig "renamed" "xyz-999" ∅.
Proof.
  destruct (SetConfig_sequence_keeps_identity sample.newValidConfig
              [mkConfig "renamed" "xyz-999" ∅; sample.bad_cfg] (sample.env true))
    as (Hn & _ & _ & _ & _ & _ & _ & Hc & _).
  split; [exact Hn | exact Hc].
Defined.

(** ** The sweep on instances without tags *)

Section Untagged.

Variable JujuModel : string.
Variable JujuController : string.

Lemma collect_nil_iff (env : environ) (controllerUUID : string)
    (instances : list environInstance) :
  Forall (fun inst =>
            hosted_by JujuModel JujuController env controllerUUID inst = false)
    instances ->
  collect JujuModel JujuController env controllerUUID instances = [].
Proof.
  intros Hall. rewrite collect_filter.
  induction Hall as [|inst instances Hi _ IH]; simpl; [reflexivity |].
  rewrite Hi. exact IH.
Qed.

Lemma collect_all (env : environ) (controllerUUID : string)
    (instances : list environInstance) :
  Forall (fun inst =>
            hosted_by JujuModel JujuController env controllerUUID inst = true)
    instances ->
  collect JujuModel JujuController env controllerUUID instances =
  map Id instances.
Proof.
  intros Hall. rewrite collect_filter.
  induction Hall as [|inst instances Hi _ IH]; simpl; [reflexivity |].
  rewrite Hi. simpl. rewrite IH. reflexivity.
Qed.

End Untagged.

(** X3.  A metadata map without a key reads as the empty string, so the sweep
    treats an untagged instance as tagged with "".  For a non-empty
    controller UUID no instance that lacks the controller tag is ever
    collected, whatever its other metadata.  For the empty controller UUID
    and an environ with a non-empty UUID, every listed instance without
    metadata is collected.  For an environ whose UUID is empty, no instance
    that lacks the model tag is collected, whatever the controller UUID. *)
Theorem sweep_reads_missing_tags_as_empty :
  forall (JujuModel JujuController : string) (env : environ)
         (controllerUUID : string) (instances : list environInstance),
    (controllerUUID <> "" ->
     Forall (fun inst => inst_Metadata (inst_raw inst) !! JujuController = None)
       instances ->
     collect JujuModel JujuController env controllerUUID instances = []) /\
    (controllerUUID = "" ->
     uuid env <> "" ->
     Forall (fun inst => inst_Metadata (inst_raw inst) = ∅) instances ->
     collect JujuModel JujuController env controllerUUID instances =
     map Id instances) /\
    (uuid env = "" ->
     Forall (fun inst => inst_Metadata (inst_raw inst) !! JujuModel = None)
       instances ->
     collect JujuModel JujuController env controllerUUID instances = []).
Proof.
  intros kM kC env ctrl instances. split; [| split].
  - intros Hne Hall. apply collect_nil_iff.
    eapply Forall_impl; [exact Hall |].
    intros inst Hk. cbv beta in Hk.
    assert (Hi : index (inst_Metadata (inst_raw inst)) kC = "")
      by (unfold index; rewrite Hk; reflexivity).
    unfold hosted_by. rewrite Hi.
    apply andb_false_intro1. apply String.eqb_neq. congruence.
  - intros -> Hu Hall. apply collect_all.
    eapply Forall_impl; [exact Hall |].
    intros inst Hk. cbv beta in Hk.
    assert (Hi : forall k, index (inst_Metadata (inst_raw inst)) k = "")
      by (intros k; unfold index; rewrite Hk, lookup_empty; reflexivity).
    unfold hosted_by. rewrite !Hi.
    apply andb_true_intro. split; [reflexivity |].
    apply negb_true_iff, String.eqb_neq. congruence.
  - intros Hu Hall. apply collect_nil_iff.
    eapply Forall_impl; [exact Hall |].
    intros inst Hk. cbv beta in Hk.
    assert (Hi : index (inst_Metadata (inst_raw inst)) kM = "")
      by (unfold index; rewrite Hk; reflexivity).
    unfold hosted_by. rewrite Hi, Hu.
    apply andb_false_intro2. reflexivity.
Qed.

Lemma sweep_reads_missing_tags_as_empty_witness :
  collect sample.JujuModel sample.JujuController (sample.env true) ""
    [mkEnvironInstance (mkInstance "juju-stray" ∅)] = ["juju-stray"] /\
  collect sample.JujuModel sample.JujuController (sample.env true) "ctrl-1"
    [mkEnvironInstance (mkInstance "juju-stray" ∅)] = [].
Proof.
  destruct (sweep_reads_missing_tags_as_empty sample.JujuModel
              sample.JujuController (sample.env true) ""
              [mkEnvironInstance (mkInstance "juju-stray" ∅)])
    as (_ & Hall & _).
  destruct (sweep_reads_missing_tags_as_empty sample.JujuModel
              sample.JujuController (sample.env true) "ctrl-1"
              [mkEnvironInstance (mkInstance "juju-stray" ∅)])
    as (Hnone & _ & _).
  split.
  - apply Hall; [reflexivity | discriminate | repeat constructor].
  - apply Hnone; [discriminate | repeat constructor].
Defined.

(** ** The sweep over a listing in parts *)

(** X4.  The names the sweep collects from a listing are the names collected
    from its parts, in order; they form a subsequence of the identifiers of
    the listing, so the batch never names an instance that was not listed,
    never reorders, and never has more names than the listing has
    instances. *)
Theorem collect_is_an_ordered_selection :
  forall (JujuModel JujuController : string) (env : environ)
         (controllerUUID : string) (l1 l2 : list environInstance),
    collect JujuModel JujuController env controllerUUID (l1 ++ l2) =
    collect JujuModel JujuController env controllerUUID l1 ++
    collect JujuModel JujuController env controllerUUID l2 /\
    sublist (collect JujuModel JujuController env controllerUUID l1)
      (map Id l1) /\
    length (collect JujuModel JujuController env controllerUUID l1) <= length l1 /\
    (forall n, In n (collect JujuModel JujuController env controllerUUID l1) ->
               exists inst, In inst l1 /\ Id inst = n /\
                            hosted_by JujuModel JujuController env
                              controllerUUID inst = true).
Proof.
  intros kM kC env ctrl l1 l2. rewrite !collect_filter.
  split; [rewrite List.filter_app, map_app; reflexivity |].
  split; [| split].
  - induction l1 as [|inst l1 IH]; simpl; [constructor |].
    destruct (hosted_by kM kC env ctrl inst); simpl.
    + apply sublist_skip. exact IH.
    + apply sublist_cons. exact IH.
  - rewrite length_map. apply List.filter_length_le.
  - intros n Hin. apply in_map_iff in Hin as (inst & Hid & Hin).
    apply filter_In in Hin as [Hin Hh]. exists inst. repeat split; assumption.
Qed.

(** ** The runs of Bootstrap *)

Lemma Bootstrap_runs (F : Cert -> result string) {W : Type} (h : handler W)
    (w : W) (env : environ) (ctx : BootstrapContext) (params : BootstrapParams) :
  Bootstrap_run F h w env ctx params (run h (Bootstrap F env ctx params) w).
Proof.
  destruct (local env) eqn:Hl.
  2:{ rewrite (Bootstrap_remote F h w env ctx params Hl).
      apply remote_delegates; [exact Hl | apply pair_eta]. }
  destruct (getCerts (cloud env)) as [[c srv]|] eqn:Hg.
  2:{ rewrite (Bootstrap_no_cert F h w env ctx params Hl Hg).
      apply no_certificate; assumption. }
  destruct (F c) as [fp|e] eqn:Hf.
  2:{ rewrite (Bootstrap_no_fingerprint F h w env ctx params c srv e Hl Hg Hf).
      eapply no_fingerprint; eassumption. }
  destruct (h _ (CertByFingerprint fp) w) as [[ci|e] w1] eqn:Hh.
  { rewrite (Bootstrap_already_trusted F h w w1 env ctx params c srv fp ci
               Hl Hg Hf Hh).
    eapply already_trusted; try eassumption. apply pair_eta. }
  destruct (IsNotFound (Some e)) eqn:Hnf.
  2:{ rewrite (Bootstrap_lookup_fails F h w w1 env ctx params c srv fp e
                 Hl Hg Hf Hh Hnf).
      eapply lookup_failed; eassumption. }
  destruct (h _ (AddCert c) w1) as [[e'|] w2] eqn:Ha.
  { rewrite (Bootstrap_registration_fails F h w w1 w2 env ctx params c srv fp
               e e' Hl Hg Hf Hh Hnf Ha).
    eapply registration_failed; eassumption. }
  rewrite (Bootstrap_registers F h w w1 w2 env ctx params c srv fp e
             Hl Hg Hf Hh Hnf Ha).
  eapply registered_then_delegates; try eassumption. apply pair_eta.
Qed.

(** ** Calls that succeed and calls that fail *)

Lemma failed_at_last_app (tr1 tr2 : list event) (e0 : errval) :
  Forall (fun x => answered x = None) tr1 ->
  failed_at_last tr2 e0 ->
  failed_at_last (tr1 ++ tr2) e0.
Proof.
  intros H1 (tr0 & ev & -> & H0 & Hev).
  exists (tr1 ++ tr0), ev. rewrite app_assoc.
  split; [reflexivity |]. split; [| exact Hev].
  apply Forall_app; split; assumption.
Qed.

Lemma failed_at_last_not_all (tr : list event) (e0 : errval) :
  failed_at_last tr e0 -> ~ Forall (fun x => answered x = None) tr.
Proof.
  intros (tr0 & ev & -> & _ & Hev) Hall.
  apply Forall_app in Hall as [_ Hall].
  inversion Hall as [|? ? Hnone _]; subst. rewrite Hev in Hnone. discriminate.
Qed.

Lemma failed_at_last_one (ev : event) (e0 : errval) :
  answered ev = Some e0 -> failed_at_last [ev] e0.
Proof. intros Hev. exists [], ev. repeat split; [constructor | exact Hev]. Qed.

Lemma Destroy_outcome {W : Type} (h : handler W) (w : W) (env : environ) :
  match returned (run h (Destroy env) w) with
  | None => Forall (fun x => answered x = None) (trace (run h (Destroy env) w))
  | Some e =>
      exists e0, failed_at_last (trace (run h (Destroy env) w)) e0 /\ e = Trace e0
  end.
Proof.
  destruct (Destroy_runs h w env) as [e w1 Hh | w1 d w2 Hh Hd
                                     | rules w1 e w2 Hne Hh Hc
                                     | rules w1 w2 d w3 Hne Hh Hc Hd];
    rewrite returned_of, trace_of.
  - exists e. split; [apply failed_at_last_one; reflexivity | reflexivity].
  - destruct d as [e|]; simpl.
    + exists e. split; [| reflexivity].
      apply (failed_at_last_app [_] [_]);
        [repeat constructor | apply failed_at_last_one; reflexivity].
    + repeat constructor.
  - exists e. split; [| reflexivity].
    apply (failed_at_last_app [_] [_]);
      [repeat constructor | apply failed_at_last_one; reflexivity].
  - destruct d as [e|]; simpl.
    + exists e. split; [| reflexivity].
      apply (failed_at_last_app [_; _] [_]);
        [repeat constructor | apply failed_at_last_one; reflexivity].
    + repeat constructor.
Qed.

Lemma sweep_outcome (kM kC : string) {W : Type} (h : handler W) (w : W)
    (env : environ) (ctrl : string) :
  match returned (run h (destroyHostedModelResources kM kC env ctrl) w) with
  | None =>
      Forall (fun x => answered x = None)
        (trace (run h (destroyHostedModelResources kM kC env ctrl) w))
  | Some e =>
      exists e0 msg,
        failed_at_last
          (trace (run h (destroyHostedModelResources kM kC env ctrl) w)) e0 /\
        e = Annotate e0 msg
  end.
Proof.
  destruct (h _ (prefixedInstances "juju-") w) as [[instances|e] w1] eqn:Hh.
  2:{ rewrite (sweep_listing_fails kM kC h w w1 env ctrl e Hh).
      rewrite returned_of, trace_of. exists e, "listing instances".
      split; [apply failed_at_last_one; reflexivity | reflexivity]. }
  destruct (collect kM kC env ctrl instances) as [|n names] eqn:Hn.
  { rewrite (sweep_nothing_hosted kM kC h w w1 env ctrl instances Hh Hn).
    rewrite returned_of, trace_of. repeat constructor. }
  destruct (h _ (RemoveInstances "juju-" (n :: names)) w1) as [ans w2] eqn:Hr.
  rewrite (sweep_removes_batch kM kC h w w1 w2 env ctrl instances ans Hh);
    rewrite Hn; [| discriminate | exact Hr].
  rewrite returned_of, trace_of.
  destruct ans as [e|].
  - exists e, "removing hosted model instances". split; [| reflexivity].
    apply (failed_at_last_app [_] [_]);
      [repeat constructor | apply failed_at_last_one; reflexivity].
  - repeat constructor.
Qed.

Lemma PrepareForBootstrap_run {W : Type} (h : handler W) (w : W) (env : environ) :
  run h (PrepareForBootstrap env) w =
  (match (h _ EnableHTTPSListener w).1 with
   | Some e => Some (Annotate e "enabling HTTPS listener")
   | None => None
   end, (h _ EnableHTTPSListener w).2,
   [Event EnableHTTPSListener (h _ EnableHTTPSListener w).1]).
Proof.
  unfold PrepareForBootstrap, call; simpl.
  destruct (h _ EnableHTTPSListener w) as [[e|] w1]; reflexivity.
Qed.

(** X5.  Destroy, the sweep and PrepareForBootstrap swallow no error: each
    returns nil exactly when every call it made answered nil.  When one
    returns an error, all its calls succeeded but the last, no call follows
    the failing one, and the error returned wraps the answer of that call, so
    that its cause is the cause of the answer. *)
Theorem lifecycle_steps_swallow_no_error :
  forall (JujuModel JujuController : string)
         (W : Type) (h : handler W) (w : W)
         (env : environ) (controllerUUID : string),
    let ok tr := Forall (fun x => answered x = None) tr in
    let faithful (r : error * W * list event) :=
      (returned r = None <-> ok (trace r)) /\
      (forall e, returned r = Some e ->
                 exists e0, failed_at_last (trace r) e0 /\ Cause e = Cause e0) in
    faithful (run h (Destroy env) w) /\
    faithful (run h (destroyHostedModelResources JujuModel JujuController env
                       controllerUUID) w) /\
    faithful (run h (PrepareForBootstrap env) w).
Proof.
  intros kM kC W h w env ctrl ok faithful. subst ok faithful. cbv beta.
  split; [| split].
  - pose proof (Destroy_outcome h w env) as Ho.
    destruct (returned (run h (Destroy env) w)) as [e|].
    + destruct Ho as (e0 & Hf & ->). split.
      * split; [discriminate |].
        intros Hall. exfalso. exact (failed_at_last_not_all _ _ Hf Hall).
      * intros e1 He1; injection He1 as <-. exists e0. split; [exact Hf | reflexivity].
    + split; [split; [intros _; exact Ho | reflexivity] | discriminate].
  - pose proof (sweep_outcome kM kC h w env ctrl) as Ho.
    destruct (returned (run h (destroyHostedModelResources kM kC env ctrl) w))
      as [e|].
    + destruct Ho as (e0 & msg & Hf & ->). split.
      * split; [discriminate |].
        intros Hall. exfalso. exact (failed_at_last_not_all _ _ Hf Hall).
      * intros e1 He1; injection He1 as <-. exists e0. split; [exact Hf | reflexivity].
    + split; [split; [intros _; exact Ho | reflexivity] | discriminate].
  - rewrite PrepareForBootstrap_run. rewrite returned_of, trace_of.
    destruct ((h _ EnableHTTPSListener w).1) as [e|] eqn:Ha.
    + split.
      * split; [discriminate |].
        intros Hall. inversion Hall as [|? ? Hnone _]; subst.
        simpl in Hnone. discriminate.
      * intros e1 He1; injection He1 as <-. exists e.
        split; [apply failed_at_last_one; reflexivity | reflexivity].
    + split; [split; [intros _; repeat constructor | reflexivity] | discriminate].
Qed.

(** ** Certificate calls in a run *)

Lemma removals_app (tr1 tr2 : list event) :
  removals (tr1 ++ tr2) = removals tr1 ++ removals tr2.
Proof. unfold removals. apply flat_map_app. Qed.

Lemma no_cert_op_reads (tr : list event) :
  Forall (fun e => on_event cert_op e = false) tr ->
  removals tr = [] /\ registrations tr = [] /\ lookups tr = [].
Proof.
  induction 1 as [|[T o a] tr Ho _ (IH1 & IH2 & IH3)]; [repeat split |].
  simpl in Ho. destruct o; try discriminate Ho; simpl; repeat split; assumption.
Qed.

Section Removals.

Variable Fingerprint : Cert -> result string.
Variable JujuModel : string.
Variable JujuController : string.

Lemma removeCertificate_removals {W : Type} (h : handler W) (w : W)
    (env : environ) :
  removals (trace (run h (removeCertificate Fingerprint env) w)) =
  own_fingerprint Fingerprint env.
Proof.
  unfold own_fingerprint.
  destruct (remote_Cert (remote (raw env))) as [c|] eqn:Hc.
  2:{ rewrite removeCertificate_no_cert by exact Hc. reflexivity. }
  destruct (Fingerprint c) as [fp|e] eqn:Hf.
  2:{ erewrite removeCertificate_no_fingerprint by eassumption. reflexivity. }
  erewrite removeCertificate_call by (eassumption || apply pair_eta).
  reflexivity.
Qed.

Lemma DestroyController_removals {W : Type} (h : handler W) (w : W)
    (env : environ) (ctrl : string) :
  let d := run h (Destroy env) w in
  let s := run h (destroyHostedModelResources JujuModel JujuController env ctrl)
             (world_after d) in
  removals (trace (run h (DestroyController Fingerprint JujuModel JujuController
                            env ctrl) w)) =
  match returned d, returned s, local env with
  | None, None, true => own_fingerprint Fingerprint env
  | _, _, _ => []
  end.
Proof.
  intros d s.
  pose proof (DestroyController_steps Fingerprint JujuModel JujuController
                h w env ctrl) as Hsteps.
  cbv zeta in Hsteps. fold d s in Hsteps. rewrite Hsteps.
  pose proof (proj1 (no_cert_op_reads _
                (destroy_op_not_cert _ (Destroy_ops h w env)))) as Hd.
  pose proof (proj1 (no_cert_op_reads _
                (sweep_op_not_cert _
                   (proj1 (sweep_ops JujuModel JujuController h (world_after d)
                             env ctrl))))) as Hs.
  fold d in Hd. fold s in Hs.
  destruct (returned d); [rewrite trace_of; exact Hd |].
  destruct (returned s);
    [rewrite trace_of, removals_app, Hd, Hs; reflexivity |].
  destruct (local env); rewrite trace_of, !removals_app, Hd, Hs;
    [| reflexivity].
  rewrite removeCertificate_removals. reflexivity.
Qed.

End Removals.

Lemma removal_op_reads (tr : list event) :
  Forall (fun e => on_event removal_op e = true) tr ->
  registrations tr = [] /\ lookups tr = [] /\ removed tr = [].
Proof.
  induction 1 as [|[T o a] tr Ho _ (IH1 & IH2 & IH3)]; [repeat split |].
  simpl in Ho. destruct o; try discriminate Ho; simpl; repeat split; assumption.
Qed.

Lemma registrations_app (tr1 tr2 : list event) :
  registrations (tr1 ++ tr2) = registrations tr1 ++ registrations tr2.
Proof. unfold registrations. apply flat_map_app. Qed.

Lemma lookups_app (tr1 tr2 : list event) :
  lookups (tr1 ++ tr2) = lookups tr1 ++ lookups tr2.
Proof. unfold lookups. apply flat_map_app. Qed.

(** X6.  DestroyController asks for the removal of a certificate only at the
    very end: a fingerprint is handed to RemoveCertByFingerprint exactly when
    the environ is local, Destroy and the sweep both returned nil, the raw
    remote has a certificate and its fingerprint can be computed, and it is
    that fingerprint.  There is at most one such call, and DestroyController
    never looks a certificate up and never registers one. *)
Theorem certificate_removed_only_after_teardown :
  forall (Fingerprint : Cert -> result string) (JujuModel JujuController : string)
         (W : Type) (h : handler W) (w : W)
         (env : environ) (controllerUUID : string),
    let r := run h (DestroyController Fingerprint JujuModel JujuController env
                      controllerUUID) w in
    let d := run h (Destroy env) w in
    let s := run h (destroyHostedModelResources JujuModel JujuController env
                      controllerUUID) (world_after d) in
    (forall fp,
        In fp (removals (trace r)) <->
        local env = true /\ returned d = None /\ returned s = None /\
        exists c, remote_Cert (remote (raw env)) = Some c /\
                  Fingerprint c = Ok fp) /\
    length (removals (trace r)) <= 1 /\
    registrations (trace r) = [] /\
    lookups (trace r) = [].
Proof.
  intros F kM kC W h w env ctrl r d s.
  pose proof (DestroyController_removals F kM kC h w env ctrl) as Hrem.
  cbv zeta in Hrem. fold d s r in Hrem.
  assert (Hown : forall fp, In fp (own_fingerprint F env) <->
                            exists c, remote_Cert (remote (raw env)) = Some c /\
                                      F c = Ok fp).
  { intros fp. unfold own_fingerprint.
    destruct (remote_Cert (remote (raw env))) as [c|].
    - destruct (F c) as [fp'|e] eqn:Hf; simpl.
      + split.
        * intros [<- | []]. exists c. split; [reflexivity | exact Hf].
        * intros (c' & Hc & Hf'). injection Hc as <-.
          rewrite Hf in Hf'. injection Hf' as <-. left; reflexivity.
      + split; [intros [] |].
        intros (c' & Hc & Hf'). injection Hc as <-. congruence.
    - simpl. split; [intros [] | intros (c' & Hc & _); discriminate]. }
  assert (Hlen : length (own_fingerprint F env) <= 1).
  { unfold own_fingerprint. destruct (remote_Cert (remote (raw env))) as [c|];
      [destruct (F c) |]; simpl; lia. }
  split; [| split; [| split]].
  - intros fp. rewrite Hrem.
    destruct (returned d) as [e|];
      [split; [intros [] | intros (_ & ? & _); discriminate] |].
    destruct (returned s) as [e|];
      [split; [intros [] | intros (_ & _ & ? & _); discriminate] |].
    destruct (local env);
      [| split; [intros [] | intros (? & _); discriminate]].
    rewrite Hown. split; [intros Hc; repeat split; exact Hc |].
    intros (_ & _ & _ & Hc). exact Hc.
  - rewrite Hrem.
    destruct (returned d); [simpl; lia |].
    destruct (returned s); [simpl; lia |].
    destruct (local env); [exact Hlen | simpl; lia].
  - pose proof (DestroyController_steps F kM kC h w env ctrl) as Hsteps.
    cbv zeta in Hsteps. fold d s r in Hsteps. rewrite Hsteps.
    pose proof (proj1 (proj2 (no_cert_op_reads _
                  (destroy_op_not_cert _ (Destroy_ops h w env))))) as Hd.
    pose proof (proj1 (proj2 (no_cert_op_reads _
                  (sweep_op_not_cert _
                     (proj1 (sweep_ops kM kC h (world_after d) env ctrl))))))
      as Hs.
    pose proof (proj1 (removal_op_reads _
                  (removeCertificate_ops F h (world_after s) env))) as Hc.
    fold d in Hd. fold s in Hs.
    destruct (returned d); [rewrite trace_of; exact Hd |].
    destruct (returned s); [rewrite trace_of, registrations_app, Hd, Hs;
                            reflexivity |].
    destruct (local env); rewrite trace_of, !registrations_app, Hd, Hs;
      [rewrite Hc |]; reflexivity.
  - pose proof (DestroyController_steps F kM kC h w env ctrl) as Hsteps.
    cbv zeta in Hsteps. fold d s r in Hsteps. rewrite Hsteps.
    pose proof (proj2 (proj2 (no_cert_op_reads _
                  (destroy_op_not_cert _ (Destroy_ops h w env))))) as Hd.
    pose proof (proj2 (proj2 (no_cert_op_reads _
                  (sweep_op_not_cert _
                     (proj1 (sweep_ops kM kC h (world_after d) env ctrl))))))
      as Hs.
    pose proof (proj1 (proj2 (removal_op_reads _
                  (removeCertificate_ops F h (world_after s) env)))) as Hc.
    fold d in Hd. fold s in Hs.
    destruct (returned d); [rewrite trace_of; exact Hd |].
    destruct (returned s); [rewrite trace_of, lookups_app, Hd, Hs;
                            reflexivity |].
    destruct (local env); rewrite trace_of, !lookups_app, Hd, Hs;
      [rewrite Hc |]; reflexivity.
Qed.

Lemma certificate_removed_only_after_teardown_witness :
  In "sha256:PEM"
    (removals (trace (run sample.server
                        (DestroyController sample.Fingerprint sample.JujuModel
                           sample.JujuController (sample.env true) "ctrl-1")
                        sample.empty))).
Proof.
  apply (proj1 (certificate_removed_only_after_teardown sample.Fingerprint
                  sample.JujuModel sample.JujuController Hypervisor
                  sample.server sample.empty (sample.env true) "ctrl-1")
           "sha256:PEM").
  repeat split. exists sample.cert. split; reflexivity.
Defined.

(** ** What DestroyController returns *)

Lemma removeCertificate_outcome (F : Cert -> result string) {W : Type}
    (h : handler W) (w : W) (env : environ) :
  match returned (run h (removeCertificate F env) w) with
  | None =>
      Forall (fun x => answered x = None \/ IsNotFound (answered x) = true)
        (trace (run h (removeCertificate F env) w))
  | Some e =>
      (exists e0,
          failed_at_last (trace (run h (removeCertificate F env) w)) e0 /\
          IsNotFound (Some e0) = false /\ Cause e = Cause e0) \/
      (exists c e0,
          remote_Cert (remote (raw env)) = Some c /\ F c = Err e0 /\
          trace (run h (removeCertificate F env) w) = [] /\
          Cause e = Cause e0)
  end.
Proof.
  destruct (remote_Cert (remote (raw env))) as [c|] eqn:Hc.
  2:{ rewrite removeCertificate_no_cert by exact Hc.
      rewrite returned_of, trace_of. constructor. }
  destruct (F c) as [fp|e] eqn:Hf.
  2:{ rewrite (removeCertificate_no_fingerprint F h w env c e Hc Hf).
      rewrite returned_of, trace_of. right. exists c, e. repeat split; assumption. }
  rewrite (removeCertificate_call F h w _ env c fp _ Hc Hf (pair_eta _)).
  rewrite returned_of, trace_of.
  destruct ((h _ (RemoveCertByFingerprint fp) w).1) as [e|] eqn:Ha.
  - destruct (IsNotFound (Some e)) eqn:Hnf.
    + constructor; [right; exact Hnf | constructor].
    + left. exists e. split; [apply failed_at_last_one; reflexivity |].
      split; [exact Hnf | reflexivity].
  - constructor; [left; reflexivity | constructor].
Qed.

(** X7.  What DestroyController returns tells what happened.  It returns nil
    only if every call it made answered nil, except that the certificate
    removal may have answered a not-found error.  When it returns an error,
    either all its calls succeeded but the last one and the cause of the
    error is the cause of that call's answer, or all its calls succeeded and
    the cause is that of the fingerprint computation.  An error whose cause
    is a not-found error never comes from the certificate removal: no removal
    call was made in that run. *)
Theorem DestroyController_error_names_the_failure :
  forall (Fingerprint : Cert -> result string) (JujuModel JujuController : string)
         (W : Type) (h : handler W) (w : W)
         (env : environ) (controllerUUID : string),
    let r := run h (DestroyController Fingerprint JujuModel JujuController env
                      controllerUUID) w in
    (returned r = None ->
     Forall (fun x => answered x = None \/
                      (on_event removal_op x = true /\
                       IsNotFound (answered x) = true)) (trace r)) /\
    (forall e, returned r = Some e ->
       (exists e0, failed_at_last (trace r) e0 /\ Cause e = Cause e0) \/
       (exists c e0, local env = true /\
                     remote_Cert (remote (raw env)) = Some c /\
                     Fingerprint c = Err e0 /\ Cause e = Cause e0 /\
                     Forall (fun x => answered x = None) (trace r))) /\
    (IsNotFound (returned r) = true -> removals (trace r) = []).
Proof.
  intros F kM kC W h w env ctrl r.
  pose proof (DestroyController_steps F kM kC h w env ctrl) as Hsteps.
  pose proof (DestroyController_removals F kM kC h w env ctrl) as Hrem.
  cbv zeta in Hsteps, Hrem. fold r in Hsteps, Hrem.
  pose proof (Destroy_outcome h w env) as Hd.
  set (d := run h (Destroy env) w) in *.
  pose proof (sweep_outcome kM kC h (world_after d) env ctrl) as Hs.
  set (s := run h (destroyHostedModelResources kM kC env ctrl) (world_after d))
    in *.
  pose proof (removeCertificate_outcome F h (world_after s) env) as Hc.
  pose proof (removeCertificate_ops F h (world_after s) env) as Hcops.
  set (c := run h (removeCertificate F env) (world_after s)) in *.
  assert (Hweak : forall tr, Forall (fun x => answered x = None) tr ->
            Forall (fun x => answered x = None \/
                             (on_event removal_op x = true /\
                              IsNotFound (answered x) = true)) tr).
  { intros tr Hall. eapply Forall_impl; [exact Hall |]. intros x Hx; left; exact Hx. }
  destruct (returned d) as [ed|].
  { destruct Hd as (e0 & Hf & ->). rewrite Hsteps, trace_of in Hrem; rewrite Hsteps, returned_of, trace_of.
    split; [discriminate |]. split.
    - intros e He; injection He as <-. left. exists e0. split; [exact Hf | reflexivity].
    - intros _. rewrite Hrem. reflexivity. }
  destruct (returned s) as [es|].
  { destruct Hs as (e0 & msg & Hf & ->). rewrite Hsteps, trace_of in Hrem; rewrite Hsteps, returned_of, trace_of.
    split; [discriminate |]. split.
    - intros e He; injection He as <-. left. exists e0.
      split; [apply failed_at_last_app; assumption | reflexivity].
    - intros _. rewrite Hrem. reflexivity. }
  destruct (local env) eqn:Hl.
  2:{ rewrite Hsteps, trace_of in Hrem; rewrite Hsteps, returned_of, trace_of.
      split; [intros _; apply Hweak, Forall_app; split; assumption |].
      split; [discriminate | intros _; rewrite Hrem; reflexivity]. }
  rewrite Hsteps, trace_of in Hrem; rewrite Hsteps, returned_of, trace_of.
  destruct (returned c) as [ec|]; simpl traced.
  - split; [discriminate |]. split.
    + intros e He; injection He as <-.
      destruct Hc as [(e0 & Hf & _ & Hcause) | (c0 & e0 & Hcert & Hfp & Htr & Hcause)].
      * left. exists e0. split; [| exact Hcause].
        apply failed_at_last_app; [exact Hd |].
        apply failed_at_last_app; assumption.
      * right. exists c0, e0. repeat split; try assumption.
        rewrite Htr, app_nil_r. apply Forall_app; split; assumption.
    + intros Hnf. rewrite Hrem.
      destruct Hc as [(e0 & _ & Hnf0 & Hcause) | (c0 & e0 & Hcert & Hfp & _)].
      * exfalso. simpl in Hnf. rewrite Hcause in Hnf. simpl in Hnf0.
        rewrite Hnf0 in Hnf. discriminate.
      * unfold own_fingerprint. rewrite Hcert, Hfp. reflexivity.
  - split; [| split; [discriminate | discriminate]].
    intros _. apply Forall_app; split; [apply Hweak; exact Hd |].
    apply Forall_app; split; [apply Hweak; exact Hs |].
    clear - Hc Hcops. induction Hcops as [|x tr Hx _ IH]; [constructor |].
    apply Forall_cons in Hc as [Hx' Hc]. constructor; [| exact (IH Hc)].
    destruct Hx' as [Hn | Hnf]; [left; exact Hn | right; split; assumption].
Qed.

Lemma DestroyController_error_names_the_failure_witness :
  removals (trace (run sample.server
                     (DestroyController sample.Fingerprint sample.JujuModel
                        sample.JujuController (sample.env true) "ctrl-1")
                     (with_faults [Some (NotFoundf "firewall")] sample.empty)))
  = [].
Proof.
  apply (proj2 (proj2 (DestroyController_error_names_the_failure
                         sample.Fingerprint sample.JujuModel
                         sample.JujuController Hypervisor sample.server
                         (with_faults [Some (NotFoundf "firewall")] sample.empty)
                         (sample.env true) "ctrl-1"))).
  reflexivity.
Defined.

(** ** The batches of a controller teardown *)

Lemma DestroyController_removed (F : Cert -> result string) (kM kC : string)
    {W : Type} (h : handler W) (w : W) (env : environ) (ctrl : string) :
  let d := run h (Destroy env) w in
  removed (trace (run h (DestroyController F kM kC env ctrl) w)) =
  match returned d with
  | Some _ => []
  | None =>
      match (h _ (prefixedInstances "juju-") (world_after d)).1 with
      | Err _ => []
      | Ok instances =>
          match collect kM kC env ctrl instances with
          | [] => []
          | names => [("juju-", names)]
          end
      end
  end.
Proof.
  intros d.
  pose proof (DestroyController_steps F kM kC h w env ctrl) as Hsteps.
  cbv zeta in Hsteps. fold d in Hsteps. rewrite Hsteps.
  pose proof (Destroy_removes_nothing h w env) as Hd. fold d in Hd.
  pose proof (sweep_removed kM kC h (world_after d) env ctrl) as Hs.
  set (s := run h (destroyHostedModelResources kM kC env ctrl) (world_after d))
    in *.
  pose proof (proj2 (proj2 (removal_op_reads _
                (removeCertificate_ops F h (world_after s) env)))) as Hc.
  destruct (returned d); [rewrite trace_of; exact Hd |].
  destruct (returned s); [| destruct (local env)];
    rewrite trace_of, ?removed_app, Hd, ?Hc, ?app_nil_r; exact Hs.
Qed.

(** X8.  Every batch that DestroyController hands to RemoveInstances has the
    prefix "juju-" and at least one identifier, is handed over only after
    Destroy returned nil, and is the only batch of the run; its identifiers
    are those the sweep collected from the listing it received.  So an empty
    batch is never sent, and nothing is removed by the sweep when Destroy
    failed or the listing failed. *)
Theorem DestroyController_batches_are_never_empty :
  forall (Fingerprint : Cert -> result string) (JujuModel JujuController : string)
         (W : Type) (h : handler W) (w : W)
         (env : environ) (controllerUUID : string),
    let r := run h (DestroyController Fingerprint JujuModel JujuController env
                      controllerUUID) w in
    let d := run h (Destroy env) w in
    length (removed (trace r)) <= 1 /\
    (forall p ids,
        In (p, ids) (removed (trace r)) ->
        p = "juju-" /\ ids <> [] /\ returned d = None /\
        removed (trace r) = [(p, ids)] /\
        exists instances,
          (h _ (prefixedInstances "juju-") (world_after d)).1 = Ok instances /\
          ids = collect JujuModel JujuController env controllerUUID instances) /\
    (returned d <> None -> removed (trace r) = []) /\
    (forall e, (h _ (prefixedInstances "juju-") (world_after d)).1 = Err e ->
               removed (trace r) = []).
Proof.
  intros F kM kC W h w env ctrl r d.
  pose proof (DestroyController_removed F kM kC h w env ctrl) as Hrem.
  cbv zeta in Hrem. fold d r in Hrem. rewrite Hrem.
  split; [| split; [| split]].
  - destruct (returned d); [simpl; lia |].
    destruct ((h _ (prefixedInstances "juju-") (world_after d)).1)
      as [instances|e]; [| simpl; lia].
    destruct (collect kM kC env ctrl instances); simpl; lia.
  - intros p ids Hin.
    destruct (returned d); [destruct Hin |].
    destruct ((h _ (prefixedInstances "juju-") (world_after d)).1)
      as [instances|e]; [| destruct Hin].
    destruct (collect kM kC env ctrl instances) as [|n names] eqn:Hn;
      [destruct Hin |].
    destruct Hin as [Heq | []]. injection Heq as <- <-.
    repeat split; [discriminate |].
    exists instances. split; [reflexivity | symmetry; exact Hn].
  - intros Hne. destruct (returned d); [reflexivity | contradiction Hne; reflexivity].
  - intros e He. rewrite He. destruct (returned d); reflexivity.
Qed.

Lemma DestroyController_batches_are_never_empty_witness :
  removed (trace (run sample.server
                    (DestroyController sample.Fingerprint sample.JujuModel
                       sample.JujuController (sample.env true) "ctrl-1")
                    (with_faults [Some (New "connection lost")] sample.empty)))
  = [] /\
  ("juju-" = "juju-" /\ ["juju-1"] <> [] /\
   returned (run sample.server (Destroy (sample.env true)) scenario_server)
   = None).
Proof.
  split.
  - apply (proj1 (proj2 (proj2 (DestroyController_batches_are_never_empty
                           sample.Fingerprint sample.JujuModel
                           sample.JujuController Hypervisor sample.server
                           (with_faults [Some (New "connection lost")]
                              sample.empty)
                           (sample.env true) "ctrl-1")))).
    discriminate.
  - destruct (proj1 (proj2 (DestroyController_batches_are_never_empty
                              sample.Fingerprint sample.JujuModel
                              sample.JujuController Hypervisor sample.server
                              scenario_server (sample.env true) "ctrl-1"))
                "juju-" ["juju-1"] (or_introl eq_refl))
      as (Hp & Hne & Hd & _).
    repeat split; assumption.
Defined.

(** ** The certificate calls of Bootstrap *)

Section BootstrapCalls.

Variable Fingerprint : Cert -> result string.

Lemma Bootstrap_certificate_calls {W : Type} (h : handler W) (w : W)
    (env : environ) (ctx : BootstrapContext) (params : BootstrapParams) :
  let tr := trace (run h (Bootstrap Fingerprint env ctx params) w) in
  removals tr = [] /\
  length (registrations tr) <= 1 /\
  length (lookups tr) <= 1 /\
  (forall fp, In fp (lookups tr) ->
              local env = true /\
              exists c srv, getCerts (cloud env) = Some (c, srv) /\
                            Fingerprint c = Ok fp) /\
  (forall c ans, In (c, ans) (registrations tr) ->
                 local env = true /\
                 (exists srv, getCerts (cloud env) = Some (c, srv)) /\
                 exists fp e w1,
                   Fingerprint c = Ok fp /\ lookups tr = [fp] /\
                   h _ (CertByFingerprint fp) w = (Err e, w1) /\
                   IsNotFound (Some e) = true /\
                   (h _ (AddCert c) w1).1 = ans).
Proof.
  intros tr. subst tr.
  destruct (Bootstrap_runs Fingerprint h w env ctx params)
    as [b w1 Hl Hb | Hl Hg | c srv e Hl Hg Hf | c srv fp e w1 Hl Hg Hf Hh Hnf
       | c srv fp ci w1 b w2 Hl Hg Hf Hh Hb
       | c srv fp e w1 e' w2 Hl Hg Hf Hh Hnf Ha
       | c srv fp e w1 w2 b w3 Hl Hg Hf Hh Hnf Ha Hb];
    rewrite trace_of; simpl;
    (split; [reflexivity |]); (split; [lia |]); (split; [lia |]);
    (split; [intros fp' Hin | intros c' ans Hin]);
    try (destruct Hin; fail).
  - destruct Hin as [<- | []]. split; [exact Hl |]. exists c, srv. split; assumption.
  - destruct Hin as [<- | []]. split; [exact Hl |]. exists c, srv. split; assumption.
  - destruct Hin as [<- | []]. split; [exact Hl |]. exists c, srv. split; assumption.
  - destruct Hin as [Heq | []]. injection Heq as <- <-.
    split; [exact Hl |]. split; [exists srv; exact Hg |].
    exists fp, e, w1. rewrite Ha. repeat split; assumption.
  - destruct Hin as [<- | []]. split; [exact Hl |]. exists c, srv. split; assumption.
  - destruct Hin as [Heq | []]. injection Heq as <- <-.
    split; [exact Hl |]. split; [exists srv; exact Hg |].
    exists fp, e, w1. rewrite Ha. repeat split; assumption.
Qed.

End BootstrapCalls.

(** X9.  Bootstrap registers a certificate only after a lookup that reported
    not-found.  In any run there is at most one lookup and at most one
    registration and no removal; the fingerprint looked up is that of the
    client certificate of the cloud spec, looked up exactly when the environ
    is local and the fingerprint can be computed; a certificate is handed to
    AddCert exactly when, in addition, the lookup answered an error whose
    cause is not-found, and it is that client certificate.  Every call of
    Bootstrap is a lookup, a registration or the generic bootstrap. *)
Theorem Bootstrap_registers_only_after_not_found :
  forall (Fingerprint : Cert -> result string)
         (W : Type) (h : handler W) (w : W) (env : environ)
         (ctx : BootstrapContext) (params : BootstrapParams),
    let tr := trace (run h (Bootstrap Fingerprint env ctx params) w) in
    removals tr = [] /\
    length (registrations tr) <= 1 /\
    length (lookups tr) <= 1 /\
    (forall fp,
        In fp (lookups tr) <->
        local env = true /\
        exists c srv, getCerts (cloud env) = Some (c, srv) /\
                      Fingerprint c = Ok fp) /\
    (forall c ans,
        In (c, ans) (registrations tr) <->
        local env = true /\
        (exists srv, getCerts (cloud env) = Some (c, srv)) /\
        exists fp e w1,
          Fingerprint c = Ok fp /\
          h _ (CertByFingerprint fp) w = (Err e, w1) /\
          IsNotFound (Some e) = true /\
          (h _ (AddCert c) w1).1 = ans) /\
    Forall (fun ev => on_event cert_op ev = true \/
                      on_event is_BootstrapEnv ev = true) tr.
Proof.
  intros F W h w env ctx params tr.
  pose proof (Bootstrap_certificate_calls F h w env ctx params) as Hcalls.
  cbv zeta in Hcalls. fold tr in Hcalls.
  destruct Hcalls as (Hrem & Hreg & Hlk & Hlook & Hadd).
  split; [exact Hrem |]. split; [exact Hreg |]. split; [exact Hlk |].
  split; [| split].
  - intros fp. split; [apply Hlook |].
    intros (Hl & c & srv & Hg & Hf). subst tr.
    destruct (h _ (CertByFingerprint fp) w) as [[ci|e] w1] eqn:Hh.
    { rewrite (Bootstrap_already_trusted F h w w1 env ctx params c srv fp ci
                 Hl Hg Hf Hh). left; reflexivity. }
    destruct (IsNotFound (Some e)) eqn:Hnf.
    2:{ rewrite (Bootstrap_lookup_fails F h w w1 env ctx params c srv fp e
                   Hl Hg Hf Hh Hnf). left; reflexivity. }
    destruct (h _ (AddCert c) w1) as [[e'|] w2] eqn:Ha.
    + rewrite (Bootstrap_registration_fails F h w w1 w2 env ctx params c srv fp
                 e e' Hl Hg Hf Hh Hnf Ha). left; reflexivity.
    + rewrite (Bootstrap_registers F h w w1 w2 env ctx params c srv fp e
                 Hl Hg Hf Hh Hnf Ha). left; reflexivity.
  - intros c ans. split.
    + intros Hin. destruct (Hadd c ans Hin)
        as (Hl & Hg & fp & e & w1 & Hf & _ & Hh & Hnf & Ha).
      split; [exact Hl |]. split; [exact Hg |].
      exists fp, e, w1. repeat split; assumption.
    + intros (Hl & [srv Hg] & fp & e & w1 & Hf & Hh & Hnf & Ha). subst tr.
      destruct (h _ (AddCert c) w1) as [[e'|] w2] eqn:Ha'; simpl in Ha; subst ans.
      * rewrite (Bootstrap_registration_fails F h w w1 w2 env ctx params c srv fp
                   e e' Hl Hg Hf Hh Hnf Ha'). left; reflexivity.
      * rewrite (Bootstrap_registers F h w w1 w2 env ctx params c srv fp e
                   Hl Hg Hf Hh Hnf Ha'). left; reflexivity.
  - subst tr. destruct (Bootstrap_runs F h w env ctx params);
      rewrite trace_of; repeat constructor; (left; reflexivity) || (right; reflexivity).
Qed.

Lemma Bootstrap_registers_only_after_not_found_witness :
  In (sample.cert, None)
    (registrations
       (trace (run sample.server
                 (Bootstrap sample.Fingerprint (sample.env true) sample.ctx
                    sample.params) sample.empty))).
Proof.
  apply (proj1 (proj2 (proj2 (proj2 (proj2
           (Bootstrap_registers_only_after_not_found sample.Fingerprint
              Hypervisor sample.server sample.empty (sample.env true)
              sample.ctx sample.params)))))
           sample.cert None).
  split; [reflexivity |]. split; [exists ""; reflexivity |].
  exists "sha256:PEM", (NotFoundf "sha256:PEM"), sample.empty.
  repeat split.
Defined.

(** X10.  Bootstrap and DestroyController agree on the certificate when the
    raw remote carries the client certificate of the cloud spec: whatever the
    collaborators answer, in any two runs, the certificate that Bootstrap
    registers is that certificate, and the fingerprint that DestroyController
    asks to remove is the fingerprint that Bootstrap looks up. *)
Theorem teardown_removes_what_bootstrap_registers :
  forall (Fingerprint : Cert -> result string) (JujuModel JujuController : string)
         (W1 W2 : Type) (h1 : handler W1) (w1 : W1) (h2 : handler W2) (w2 : W2)
         (env : environ) (ctx : BootstrapContext) (params : BootstrapParams)
         (controllerUUID : string) (c : Cert) (srv : string),
    getCerts (cloud env) = Some (c, srv) ->
    remote_Cert (remote (raw env)) = Some c ->
    let boot := trace (run h1 (Bootstrap Fingerprint env ctx params) w1) in
    let down := trace (run h2 (DestroyController Fingerprint JujuModel
                                 JujuController env controllerUUID) w2) in
    (forall c' ans, In (c', ans) (registrations boot) -> c' = c) /\
    (forall fp, In fp (lookups boot) -> Fingerprint c = Ok fp) /\
    (forall fp, In fp (removals down) -> Fingerprint c = Ok fp) /\
    (forall fp fp', In fp (lookups boot) -> In fp' (removals down) -> fp = fp').
Proof.
  intros F kM kC W1 W2 h1 w1 h2 w2 env ctx params ctrl c srv Hg Hc boot down.
  pose proof (Bootstrap_certificate_calls F h1 w1 env ctx params) as Hcalls.
  cbv zeta in Hcalls. fold boot in Hcalls.
  destruct Hcalls as (_ & _ & _ & Hlook & Hadd).
  assert (Hboot : forall fp, In fp (lookups boot) -> F c = Ok fp).
  { intros fp Hin. destruct (Hlook fp Hin) as (_ & c' & srv' & Hg' & Hf).
    rewrite Hg in Hg'. injection Hg' as <- <-. exact Hf. }
  assert (Hdown : forall fp, In fp (removals down) -> F c = Ok fp).
  { intros fp Hin. subst down.
    rewrite (DestroyController_removals F kM kC h2 w2 env ctrl) in Hin.
    destruct (returned (run h2 (Destroy env) w2)); [destruct Hin |].
    destruct (returned (run h2 (destroyHostedModelResources kM kC env ctrl)
                          (world_after (run h2 (Destroy env) w2))));
      [destruct Hin |].
    destruct (local env); [| destruct Hin].
    unfold own_fingerprint in Hin. rewrite Hc in Hin.
    destruct (F c) as [fp'|e]; [| destruct Hin].
    destruct Hin as [<- | []]. reflexivity. }
  split; [| split; [exact Hboot | split; [exact Hdown |]]].
  - intros c' ans Hin. destruct (Hadd c' ans Hin) as (_ & [srv' Hg'] & _).
    rewrite Hg in Hg'. injection Hg' as <- <-. reflexivity.
  - intros fp fp' Hb Hd. specialize (Hboot fp Hb). specialize (Hdown fp' Hd).
    congruence.
Qed.

Lemma teardown_removes_what_bootstrap_registers_witness :
  In "sha256:PEM"
    (removals (trace (run sample.server
                        (DestroyController sample.Fingerprint
                           sample.JujuModel sample.JujuController
                           (sample.env true) "ctrl-1") sample.empty))) /\
  sample.Fingerprint sample.cert = Ok "sha256:PEM".
Proof.
  assert (Hin : In "sha256:PEM"
                  (removals (trace (run sample.server
                                      (DestroyController sample.Fingerprint
                                         sample.JujuModel sample.JujuController
                                         (sample.env true) "ctrl-1")
                                      sample.empty))))
    by (left; reflexivity).
  split; [exact Hin |].
  exact (proj1 (proj2 (proj2
           (teardown_removes_what_bootstrap_registers sample.Fingerprint
              sample.JujuModel sample.JujuController Hypervisor Hypervisor
              sample.server sample.empty sample.server sample.empty
              (sample.env true) sample.ctx sample.params "ctrl-1"
              sample.cert "" eq_refl eq_refl))) "sha256:PEM" Hin).
Defined.

(** ** What Bootstrap returns *)

(** X11.  What Bootstrap returns tells what happened.  When Bootstrap reaches
    the generic bootstrap, that call is the last of the run and the only
    generic bootstrap call, Bootstrap returns its answer as it is, result or
    error, not wrapped, and every earlier call answered nil, except that the
    certificate lookup, and only the lookup, may have answered a not-found
    error.  A result is never returned in any other way.  When Bootstrap does
    not reach the generic bootstrap it returns an error: without any call,
    the missing-certificate error or the traced error of the fingerprint
    computation; otherwise an error with the cause of the answer of the last
    call, which is a certificate call, the earlier calls being as above. *)
Theorem Bootstrap_error_names_the_failure :
  forall (Fingerprint : Cert -> result string)
         (W : Type) (h : handler W) (w : W) (env : environ)
         (ctx : BootstrapContext) (params : BootstrapParams),
    let r := run h (Bootstrap Fingerprint env ctx params) w in
    let tolerated x :=
      answered x = None \/
      (on_event is_CertByFingerprint x = true /\
       IsNotFound (answered x) = true) in
    (delegated (trace r) = true ->
     exists tr0,
       trace r = tr0 ++ [Event (BootstrapEnv ctx params) (returned r)] /\
       Forall tolerated tr0 /\
       Forall (fun x => on_event is_BootstrapEnv x = false) tr0) /\
    (forall res, returned r = Ok res -> delegated (trace r) = true) /\
    (delegated (trace r) = false ->
     exists e,
       returned r = Err e /\
       ((trace r = [] /\ local env = true /\
         ((getCerts (cloud env) = None /\
           e = New "cannot bootstrap without client certificate") \/
          (exists c srv e0, getCerts (cloud env) = Some (c, srv) /\
                            Fingerprint c = Err e0 /\ e = Trace e0))) \/
        (exists tr0 ev e0,
            trace r = tr0 ++ [ev] /\ answered ev = Some e0 /\
            Cause e = Cause e0 /\ on_event cert_op ev = true /\
            Forall tolerated tr0))).
Proof.
  intros F W h w env ctx params r tolerated. subst r tolerated. cbv beta.
  destruct (Bootstrap_runs F h w env ctx params)
    as [b w1 Hl Hb | Hl Hg | c srv e Hl Hg Hf | c srv fp e w1 Hl Hg Hf Hh Hnf
       | c srv fp ci w1 b w2 Hl Hg Hf Hh Hb
       | c srv fp e w1 e' w2 Hl Hg Hf Hh Hnf Ha
       | c srv fp e w1 w2 b w3 Hl Hg Hf Hh Hnf Ha Hb];
    rewrite returned_of, trace_of; (split; [| split]).
  - intros _. exists []. repeat split; constructor.
  - intros res _. reflexivity.
  - discriminate.
  - discriminate.
  - discriminate.
  - intros _. eexists. split; [reflexivity |].
    left. repeat split; [exact Hl |]. left. split; [exact Hg | reflexivity].
  - discriminate.
  - discriminate.
  - intros _. eexists. split; [reflexivity |].
    left. repeat split; [exact Hl |]. right. exists c, srv, e.
    repeat split; assumption.
  - discriminate.
  - discriminate.
  - intros _. eexists. split; [reflexivity |].
    right. exists [], (Event (CertByFingerprint fp) (Err e)), e.
    repeat split. constructor.
  - intros _. exists [Event (CertByFingerprint fp) (Ok ci)].
    split; [reflexivity |].
    split; (constructor; [| constructor]); [left |]; reflexivity.
  - intros res _. reflexivity.
  - discriminate.
  - discriminate.
  - discriminate.
  - intros _. eexists. split; [reflexivity |].
    right. exists [Event (CertByFingerprint fp) (Err e)],
                  (Event (AddCert c) (Some e')), e'.
    repeat split. constructor; [| constructor].
    right. split; [reflexivity | exact Hnf].
  - intros _.
    exists [Event (CertByFingerprint fp) (Err e); Event (AddCert c) None].
    split; [reflexivity |]. split.
    + constructor; [right; split; [reflexivity | exact Hnf] |].
      constructor; [left; reflexivity | constructor].
    + repeat constructor.
  - intros res _. reflexivity.
  - discriminate.
Qed.

Lemma Bootstrap_error_names_the_failure_witness :
  exists tr0,
    trace (run sample.server
             (Bootstrap sample.Fingerprint (sample.env true) sample.ctx
                sample.params) sample.empty) =
    tr0 ++ [Event (BootstrapEnv sample.ctx sample.params)
              (Ok {| Arch := "amd64"; Series := "xenial" |})] /\
    Forall (fun x => answered x = None \/
                     (on_event is_CertByFingerprint x = true /\
                      IsNotFound (answered x) = true)) tr0 /\
    Forall (fun x => on_event is_BootstrapEnv x = false) tr0.
Proof.
  exact (proj1 (Bootstrap_error_names_the_failure sample.Fingerprint Hypervisor
                  sample.server sample.empty (sample.env true) sample.ctx
                  sample.params) eq_refl).
Defined.

(** ** The name of the profile *)

Lemma SetConfigs_snapshot (nvc : config.Config -> result environConfig)
    (cfgs : list config.Config) (env : environ) :
  ecfg (SetConfigs nvc cfgs env) = default (ecfg env) (last_valid nvc cfgs) /\
  name (SetConfigs nvc cfgs env) = name env.
Proof.
  unfold SetConfigs. revert env.
  induction cfgs as [|cfg cfgs IH]; intros env; [split; reflexivity |].
  simpl fold_left. destruct (IH (SetConfig nvc cfg env).1) as [He Hn].
  rewrite He, Hn.
  assert (Hlast : last_valid nvc (cfg :: cfgs) =
                  match last_valid nvc cfgs with
                  | Some ecfg0 => Some ecfg0
                  | None => match nvc cfg with
                            | Ok ecfg0 => Some ecfg0
                            | Err _ => None
                            end
                  end).
  { unfold last_valid at 1. simpl. apply last_valid_from. }
  rewrite Hlast. unfold SetConfig.
  destruct (last_valid nvc cfgs); destruct (nvc cfg); split; reflexivity.
Qed.

(** X12.  The profile name follows the configuration snapshot, Name does
    not.  After any sequence of SetConfig calls the profile name is "juju-"
    followed by the name of the last configuration that validated, or of the
    original snapshot when none did, while Name is still the name of the
    construction.  For one call: a successful SetConfig moves the profile
    name to the new configured name and keeps Name; a failed SetConfig
    changes neither.  Two environs have the same profile name exactly when
    their configured names are equal, and a profile name always starts with
    "juju-". *)
Theorem profileName_follows_the_configuration :
  forall (newValidConfig : config.Config -> result environConfig)
         (env1 env2 : environ) (cfg : config.Config)
         (cfgs : list config.Config),
    (profileName env1 = profileName env2 <->
     ec_Name (ecfg env1) = ec_Name (ecfg env2)) /\
    String.prefix "juju-" (profileName env1) = true /\
    (forall ecfg0, newValidConfig cfg = Ok ecfg0 ->
       profileName (SetConfig newValidConfig cfg env1).1 =
         "juju-" +:+ ec_Name ecfg0 /\
       Name (SetConfig newValidConfig cfg env1).1 = Name env1) /\
    (forall e, newValidConfig cfg = Err e ->
       profileName (SetConfig newValidConfig cfg env1).1 = profileName env1 /\
       Name (SetConfig newValidConfig cfg env1).1 = Name env1) /\
    profileName (SetConfigs newValidConfig cfgs env1) =
      "juju-" +:+ match last_valid newValidConfig cfgs with
                  | Some ecfg0 => ec_Name ecfg0
                  | None => ec_Name (ecfg env1)
                  end /\
    Name (SetConfigs newValidConfig cfgs env1) = Name env1.
Proof.
  intros nvc env1 env2 cfg cfgs. unfold profileName, Name.
  split; [| split; [| split; [| split; [| split]]]].
  - split; [| intros ->; reflexivity].
    simpl. intros Heq. injection Heq as Heq. exact Heq.
  - simpl. destruct (ec_Name (ecfg env1)); reflexivity.
  - intros ecfg0 Hv. unfold SetConfig. rewrite Hv. split; reflexivity.
  - intros e Hv. unfold SetConfig. rewrite Hv. split; reflexivity.
  - rewrite (proj1 (SetConfigs_snapshot nvc cfgs env1)).
    destruct (last_valid nvc cfgs); reflexivity.
  - exact (proj2 (SetConfigs_snapshot nvc cfgs env1)).
Qed.

Lemma profileName_follows_the_configuration_witness :
  (profileName (SetConfig sample.newValidConfig (mkConfig "renamed" "abc-123" ∅)
                  (sample.env true)).1 = "juju-renamed" /\
   Name (SetConfig sample.newValidConfig (mkConfig "renamed" "abc-123" ∅)
           (sample.env true)).1 = "controller") /\
  (profileName (SetConfig sample.newValidConfig sample.bad_cfg
                  (sample.env true)).1 = "juju-controller" /\
   Name (SetConfig sample.newValidConfig sample.bad_cfg
           (sample.env true)).1 = "controller").
Proof.
  destruct (profileName_follows_the_configuration sample.newValidConfig
              (sample.env true) (sample.env true)
              (mkConfig "renamed" "abc-123" ∅) [])
    as (_ & _ & Hok & _).
  destruct (profileName_follows_the_configuration sample.newValidConfig
              (sample.env true) (sample.env true) sample.bad_cfg [])
    as (_ & _ & _ & Hfail & _).
  split.
  - exact (Hok {| ec_Config := mkConfig "renamed" "abc-123" ∅; ec_attrs := ∅ |}
             eq_refl).
  - exact (Hfail (New "empty name") eq_refl).
Defined.
